(** * Isochrone Aggregation Engine: a shallow embedding of [isochrome.py]

    The Python module is a Streamlit script built around the class
    [IsochroneAnalyzer].  Its methods are translated below as functions in
    a small monad that threads the mutable objects of the program, lets a
    raised exception unwind to the nearest handler while the mutations
    performed so far persist, and records every observable effect
    (user-interface calls, [time.sleep], invocations of the remote
    service) in a trace. *)

From Stdlib Require Import List ZArith QArith Qround String Ascii Bool Lia.
From Stdlib Require Import DecimalString.
Import ListNotations.

Local Close Scope Q_scope.
Local Open Scope list_scope.

(** ** Python values *)

(** The subclasses of [Exception] that occur in the program.  [ApiError] is
    [openrouteservice.exceptions.ApiError] with its subclasses, the only
    class that [retry_request] handles; [OtherException] stands for any
    further subclass of [Exception] a callee may raise (a timeout, a
    transport error, ...). *)
Inductive exn : Type :=
| ApiError (msg : string)
| RuntimeError (msg : string)
| ValueError (msg : string)
| NameError (name : string)
| AttributeError (msg : string)
| OtherException (msg : string).

Definition is_ApiError (e : exn) : bool :=
  match e with
  | ApiError _ => true
  | _ => false
  end.

(** What a call does: it returns a value or raises. *)
Inductive outcome (A : Type) : Type :=
| Return (a : A)
| Raise (e : exn).

Arguments Return {A} a.
Arguments Raise {A} e.

(** The arithmetic the script performs on the numbers it receives (JSON
    numbers decoded to [int] or [float]).  Only the operations that occur
    in the source are listed; [round_div_zero] records that
    [round(0 / 1e6, 2)] is [0.0], which compares equal to [0]. *)
Class PyNumber (num : Type) : Type := {
  int0 : num;
  add : num -> num -> num;
  truediv : num -> num -> num;
  lit_1e6 : num;
  round_ndigits : num -> Z -> num;
  float : string -> option num;
  round_div_zero : round_ndigits (truediv int0 lit_1e6) 2%Z = int0
}.

(** A zero-argument callable that performs a remote call, described by
    what its successive invocations do: [func i] is the outcome of the
    invocation number [i] (counted from 0). *)
Definition thunk (A : Type) : Type := nat -> outcome A.

(** [str(n)] for an [int]. *)
Definition str_of_int (n : Z) : string := NilZero.string_of_int (Z.to_int n).

Declare Scope py_scope.
Delimit Scope py_scope with py.

Section Engine.

Context {num : Type} `{PyNumber num}.

(** ** Data *)

(** A sample point [[lon, lat]]. *)
Definition point : Type := (num * num)%type.

(** A coordinate tuple of a ring: two components, and a third one when the
    file carries altitudes. *)
Record vertex : Type := {
  vx : num;
  vy : num;
  vz : option num
}.

(** The shapely geometries of a GeoDataFrame, by [geom_type].  Only the
    exterior ring of a polygon is read by the program. *)
Record polygon : Type := {
  exterior : list vertex;
  interiors : list (list vertex)
}.

Inductive geometry : Type :=
| Polygon (poly : polygon)
| MultiPolygon (geoms : list polygon)
| OtherGeometry (geom_type : string).

(** A GeoDataFrame: its geometry column, and the centroid of the union of
    the column as the geometry library computes it. *)
Record geodataframe : Type := {
  gdf_geometry : list geometry;
  union_centroid : point
}.

Definition gdf_empty (g : geodataframe) : bool :=
  match gdf_geometry g with
  | [] => true
  | _ :: _ => false
  end.

(** One feature of an isochrone response: [properties.value],
    [properties.area] (optional) and the polygon.  The value is taken as
    an integer; [//] is the floor division, which is [Z.div] for the
    positive divisor 60. *)
Record feature : Type := {
  value : Z;
  area : option num;
  feature_geometry : list point
}.

Record response : Type := {
  features : list feature
}.

(** The keyword arguments of [client.isochrones]. *)
Record request : Type := {
  locations : list point;
  profile : string;
  range : list Z;
  attributes : list string;
  options_traffic : option bool
}.

(** The remote service: the answer to a request issued for the sample
    point number [idx], at each successive invocation. *)
Definition service : Type := request -> nat -> thunk response.

(** What is added to a [folium.Map].  An isochrone layer carries the
    feature, its [name], the colour bound by the style function, its fill
    opacity, and the two interpolated values of its tooltip besides the
    profile: [waktu] and [round(area_m2/1e6, 2)]. *)
Inductive layer : Type :=
| KmlLayer (g : geodataframe)
| IsochroneLayer (f : feature) (name : string) (clr : string)
    (fillOpacity : Q) (waktu : Z) (km2 : num)
| Marker (location : num * num) (tooltip : string)
| LayerControl.

Record folium_map : Type := {
  map_location : num * num;
  layers : list layer;
  fitted : bool
}.

(** ** Effects *)

Inductive event : Type :=
| Call (attempt : nat)                       (* func() is invoked *)
| Sleep (seconds : Q)                        (* time.sleep *)
| StWarningRetry (attempt : nat) (wait : Q)  (* st.warning, retry_request *)
| StErrorKml                                 (* st.error, load_kml *)
| StInfoPoints (n : nat)                     (* st.info, load_kml *)
| StWriteProfile (p : string)                (* st.write *)
| StErrorPoint (idx : nat) (e : exn)         (* st.error, generate_isochrones *)
| StErrorCoordinate (e : exn)                (* st.error, single point *)
| StSubheader                                (* st.subheader *)
| StMarkdown (p : string) (km2 : num)        (* st.markdown *)
| StFolium (shown : option folium_map)       (* st_folium *)
| OpenFile (path : string)                   (* open(path, "wb") *)
| FileWrite (path : string).                 (* f.write(file_kml.read()) *)

Definition trace : Type := list event.

(** A computation over a mutable state [S]: its outcome, the state it
    leaves (also when it raises) and the events it performs. *)
Definition M (S A : Type) : Type := S -> outcome A * S * trace.

Definition ret {S A} (a : A) : M S A := fun s => (Return a, s, []).

Definition raise {S A} (e : exn) : M S A := fun s => (Raise e, s, []).

Definition bind {S A B} (m : M S A) (k : A -> M S B) : M S B :=
  fun s =>
    match m s with
    | (Return a, s1, t1) =>
        let '(r, s2, t2) := k a s1 in (r, s2, t1 ++ t2)
    | (Raise e, s1, t1) => (Raise e, s1, t1)
    end.

Definition emit {S} (e : event) : M S unit := fun s => (Return tt, s, [e]).

Definition get {S} : M S S := fun s => (Return s, s, []).

Definition put {S} (s : S) : M S unit := fun _ => (Return tt, s, []).

Definition modify {S} (f : S -> S) : M S unit := fun s => (Return tt, f s, []).

Definition lift {S A} (o : outcome A) : M S A := fun s => (o, s, []).

(** [try: body except cls: handler]: an exception of the body for which
    [cls] holds is handled, any other one goes on unwinding. *)
Definition try_except {S A} (body : M S A) (cls : exn -> bool)
    (handler : exn -> M S A) : M S A :=
  fun s =>
    match body s with
    | (Return a, s1, t1) => (Return a, s1, t1)
    | (Raise e, s1, t1) =>
        if cls e
        then let '(r, s2, t2) := handler e s1 in (r, s2, t1 ++ t2)
        else (Raise e, s1, t1)
    end.

(** Every member of [exn] is an [Exception]. *)
Definition is_Exception (e : exn) : bool := true.

Notation "x <- m ;; k" := (bind m (fun x => k))
  (at level 61, m at next level, right associativity) : py_scope.
Notation "m ;;; k" := (bind m (fun _ => k))
  (at level 61, right associativity) : py_scope.

Local Open Scope py_scope.

(** ** The retry executor *)

Definition exhausted_message : string :=
  "Gagal setelah beberapa kali mencoba ulang.".

(** The body of [for attempt in range(max_retries)], from iteration
    [attempt] with [remaining] iterations to go, followed by the [raise]
    after the loop. *)
Fixpoint retry_loop {S A} (func : thunk A) (wait : Q)
    (attempt remaining : nat) : M S A :=
  match remaining with
  | O => raise (RuntimeError exhausted_message)
  | Datatypes.S n =>
      try_except
        (emit (Call attempt) ;;; lift (func attempt))
        is_ApiError
        (fun _ =>
           emit (StWarningRetry (attempt + 1) wait) ;;;
           emit (Sleep wait) ;;;
           retry_loop func wait (Datatypes.S attempt) n)
  end.

(** [retry_request(self, func, max_retries=3, wait=5)]. *)
Definition retry_request {S A} (func : thunk A) (max_retries : Z)
    (wait : Q) : M S A :=
  retry_loop func wait 0 (Z.to_nat max_retries).


Definition default_max_retries : Z := 3%Z.
Definition default_wait : Q := 5%Q.

(** [for x in l: body]. *)
Fixpoint for_each {S X} (l : list X) (body : X -> M S unit) : M S unit :=
  match l with
  | [] => ret tt
  | x :: rest => body x ;;; for_each rest body
  end.

(** [enumerate(l)]. *)
Definition enumerate {X} (l : list X) : list (nat * X) :=
  combine (seq 0 (List.length l)) l.

(** ** The map *)

Definition COLOR_MAP : list (string * string) :=
  [ ("driving-traffic", "#377eb8");
    ("driving-car", "#1a9641");
    ("cycling-regular", "#fdae61");
    ("foot-walking", "#2b83ba");
    ("driving-hgv", "#a6d96a");
    ("cycling-electric", "#d7191c");
    ("foot-hiking", "#984ea3");
    ("wheelchair", "#ff7f00") ]%string.

(** [d.get(key, default)]. *)
Fixpoint dict_get (d : list (string * string)) (key default : string)
    : string :=
  match d with
  | [] => default
  | (k, v) :: rest => if String.eqb k key then v else dict_get rest key default
  end.

(** [layer.add_to(m)]: on [None] the attribute lookup fails. *)
Definition add_to (l : layer) (m : option folium_map)
    : outcome (option folium_map) :=
  match m with
  | Some fm =>
      Return (Some {| map_location := map_location fm;
                      layers := layers fm ++ [l];
                      fitted := fitted fm |})
  | None =>
      Raise (AttributeError "'NoneType' object has no attribute 'add_child'")
  end.

(** [f"{waktu} menit - {profile}"]. *)
Definition layer_name (waktu : Z) (profile : string) : string :=
  (str_of_int waktu ++ " menit - " ++ profile)%string.

(** [round(x / 1e6, 2)]. *)
Definition km2_of (x : num) : num := round_ndigits (truediv x lit_1e6) 2%Z.

(** ** The analyzer object *)

Record IsochroneAnalyzer : Type := {
  api_key : string;
  file_kml : option string;
  list_menit : list Z;
  sampling_interval : Z;
  profile_list : list string;
  range_detik : list Z;
  gdf_kml : option geodataframe;
  centroid : option point;
  koordinat_list : list point;
  self_map : option folium_map;
  area_summary : list (string * num)
}.

(** [__init__]. *)
Definition init (api_key : string) (file_kml : option string)
    (list_menit : list Z) (profile_list : list string)
    (sampling_interval : Z) : IsochroneAnalyzer :=
  {| api_key := api_key;
     file_kml := file_kml;
     list_menit := list_menit;
     sampling_interval := sampling_interval;
     profile_list := profile_list;
     range_detik := list_menit;
     gdf_kml := None;
     centroid := None;
     koordinat_list := [];
     self_map := None;
     area_summary := [] |}.

Definition default_sampling_interval : Z := 20%Z.

Definition set_gdf_kml (g : geodataframe) (a : IsochroneAnalyzer)
    : IsochroneAnalyzer :=
  {| api_key := api_key a; file_kml := file_kml a;
     list_menit := list_menit a; sampling_interval := sampling_interval a;
     profile_list := profile_list a; range_detik := range_detik a;
     gdf_kml := Some g; centroid := centroid a;
     koordinat_list := koordinat_list a; self_map := self_map a;
     area_summary := area_summary a |}.

Definition set_centroid (c : point) (a : IsochroneAnalyzer)
    : IsochroneAnalyzer :=
  {| api_key := api_key a; file_kml := file_kml a;
     list_menit := list_menit a; sampling_interval := sampling_interval a;
     profile_list := profile_list a; range_detik := range_detik a;
     gdf_kml := gdf_kml a; centroid := Some c;
     koordinat_list := koordinat_list a; self_map := self_map a;
     area_summary := area_summary a |}.

Definition set_koordinat_list (l : list point) (a : IsochroneAnalyzer)
    : IsochroneAnalyzer :=
  {| api_key := api_key a; file_kml := file_kml a;
     list_menit := list_menit a; sampling_interval := sampling_interval a;
     profile_list := profile_list a; range_detik := range_detik a;
     gdf_kml := gdf_kml a; centroid := centroid a;
     koordinat_list := l; self_map := self_map a;
     area_summary := area_summary a |}.

Definition set_self_map (m : option folium_map) (a : IsochroneAnalyzer)
    : IsochroneAnalyzer :=
  {| api_key := api_key a; file_kml := file_kml a;
     list_menit := list_menit a; sampling_interval := sampling_interval a;
     profile_list := profile_list a; range_detik := range_detik a;
     gdf_kml := gdf_kml a; centroid := centroid a;
     koordinat_list := koordinat_list a; self_map := m;
     area_summary := area_summary a |}.

Definition set_area_summary (l : list (string * num)) (a : IsochroneAnalyzer)
    : IsochroneAnalyzer :=
  {| api_key := api_key a; file_kml := file_kml a;
     list_menit := list_menit a; sampling_interval := sampling_interval a;
     profile_list := profile_list a; range_detik := range_detik a;
     gdf_kml := gdf_kml a; centroid := centroid a;
     koordinat_list := koordinat_list a; self_map := self_map a;
     area_summary := l |}.

(** ** The boundary extractor: [load_kml] *)

(** One iteration of [for geom in gdf_kml.geometry], on the list
    [boundary_points] built so far. *)
Definition extend_boundary (boundary_points : list vertex) (geom : geometry)
    : list vertex :=
  match geom with
  | Polygon poly => boundary_points ++ exterior poly
  | MultiPolygon geoms =>
      fold_left (fun acc poly => acc ++ exterior poly) geoms boundary_points
  | OtherGeometry _ => boundary_points
  end.

Definition boundary_points_of (g : geodataframe) : list vertex :=
  fold_left extend_boundary (gdf_geometry g) [].

(** Keep an element when [skip] is 0 and pass over the [step - 1] next
    ones. *)
Fixpoint stride {X} (step skip : nat) (l : list X) : list X :=
  match l with
  | [] => []
  | x :: rest =>
      match skip with
      | O => x :: stride step (pred step) rest
      | Datatypes.S k => stride step k rest
      end
  end.

(** The extended slice [l[::step]] of Python: a zero step is refused, a
    negative one walks from the last element backwards. *)
Definition slice_step {X} (l : list X) (step : Z) : outcome (list X) :=
  if (step =? 0)%Z then Raise (ValueError "slice step cannot be zero")
  else if (0 <? step)%Z then Return (stride (Z.to_nat step) 0 l)
  else Return (stride (Z.to_nat (- step)) 0 (rev l)).

(** [gpd.read_file(path, driver='KML')] is a parameter: what parsing the
    file at [path] yields. *)
Definition load_kml (read_file : string -> outcome geodataframe)
    : M IsochroneAnalyzer bool :=
  self <- get ;;
  gdf <- lift (match file_kml self with
               | Some path => read_file path
               | None => Raise (OtherException "invalid path or file: None")
               end) ;;
  if gdf_empty gdf then
    emit StErrorKml ;;;
    ret false
  else
    modify (set_gdf_kml gdf) ;;;
    modify (set_centroid (union_centroid gdf)) ;;;
    let boundary_points := boundary_points_of gdf in
    sampled <- lift (slice_step
                       (List.map (fun pt => (vx pt, vy pt)) boundary_points)
                       (sampling_interval self)) ;;
    modify (set_koordinat_list sampled) ;;;
    emit (StInfoPoints (List.length sampled)) ;;;
    ret true.

(** ** [build_map] *)

Definition build_map : M IsochroneAnalyzer unit :=
  self <- get ;;
  match centroid self, gdf_kml self with
  | Some c, Some g =>
      modify (set_self_map
                (Some {| map_location := (snd c, fst c);
                         layers := [KmlLayer g];
                         fitted := true |}))
  | _, _ =>
      raise (AttributeError "'NoneType' object has no attribute")
  end.

(** ** The request dispatcher and the aggregation: [generate_isochrones] *)

(** The state of the loop over the sample points of one profile: the
    object and the local [total_area_m2]. *)
Record frame : Type := {
  self : IsochroneAnalyzer;
  total_area_m2 : num
}.

Definition add_area (area_m2 : num) (fr : frame) : frame :=
  {| self := self fr; total_area_m2 := add (total_area_m2 fr) area_m2 |}.

Definition set_frame_map (m : option folium_map) (fr : frame) : frame :=
  {| self := set_self_map m (self fr); total_area_m2 := total_area_m2 fr |}.

Definition isochrones_request (koordinat : point) (profile : string)
    (converted_range : list Z) : request :=
  {| locations := [koordinat];
     profile := profile;
     range := converted_range;
     attributes := ["area"%string];
     options_traffic :=
       if String.eqb profile "driving-traffic" then Some true else None |}.

(** The body of [for feature in isochrones["features"]]. *)
Definition process_feature (profile warna_fill : string) (ft : feature)
    : M frame unit :=
  let waktu := (value ft / 60)%Z in
  let area_m2 := match area ft with
                 | Some a => a
                 | None => int0
                 end in
  modify (add_area area_m2) ;;;
  fr <- get ;;
  m <- lift (add_to (IsochroneLayer ft (layer_name waktu profile) warna_fill
                       (1 # 5)%Q waktu (km2_of area_m2))
                    (self_map (self fr))) ;;
  modify (set_frame_map m).

Definition inter_request_delay : Q := (5 # 2)%Q.

(** The body of [for idx, koordinat in enumerate(self.koordinat_list)]. *)
Definition process_point (client : service) (converted_range : list Z)
    (profile warna_fill : string) (item : nat * point) : M frame unit :=
  let idx := fst item in
  let koordinat := snd item in
  try_except
    (isochrones <- retry_request
                     (client (isochrones_request koordinat profile
                                converted_range) idx)
                     default_max_retries default_wait ;;
     for_each (features isochrones) (process_feature profile warna_fill) ;;;
     emit (Sleep inter_request_delay))
    is_Exception
    (fun e => emit (StErrorPoint idx e)).

(** Run the loop over the points with a fresh [total_area_m2 = 0] and hand
    back its final value. *)
Definition with_total (body : M frame unit) : M IsochroneAnalyzer num :=
  fun a =>
    match body {| self := a; total_area_m2 := int0 |} with
    | (Return _, fr, t) => (Return (total_area_m2 fr), self fr, t)
    | (Raise e, fr, t) => (Raise e, self fr, t)
    end.

(** The body of [for profile in self.profile_list]. *)
Definition process_profile (client : service) (converted_range : list Z)
    (profile : string) : M IsochroneAnalyzer unit :=
  emit (StWriteProfile profile) ;;;
  let warna_fill := dict_get COLOR_MAP profile "#666666" in
  self <- get ;;
  total <- with_total
             (for_each (enumerate (koordinat_list self))
                (process_point client converted_range profile warna_fill)) ;;
  modify (fun a =>
            set_area_summary
              (area_summary a ++ [(profile, km2_of total)]) a).

(** [converted_range] is the module-level variable the method reads. *)
Definition generate_isochrones (client : service) (converted_range : list Z)
    : M IsochroneAnalyzer unit :=
  self <- get ;;
  for_each (profile_list self) (process_profile client converted_range) ;;;
  self <- get ;;
  match centroid self with
  | None => raise (AttributeError "'NoneType' object has no attribute 'y'")
  | Some c =>
      m <- lift (add_to (Marker (snd c, fst c) "Titik Pusat")
                   (self_map self)) ;;
      modify (set_self_map m) ;;;
      self <- get ;;
      m <- lift (add_to LayerControl (self_map self)) ;;
      modify (set_self_map m)
  end.

(** ** The summary reporter: [display_summary], and [show_map] *)

Definition display_summary : M IsochroneAnalyzer unit :=
  emit StSubheader ;;;
  self <- get ;;
  for_each (area_summary self)
    (fun item => emit (StMarkdown (fst item) (snd item))).

Definition show_map : M IsochroneAnalyzer unit :=
  self <- get ;;
  emit (StFolium (self_map self)).

(** ** The script *)

(** An uploaded file, by what the KML parser makes of its content. *)
Record upload : Type := {
  parsed : outcome geodataframe
}.

Inductive input_type : Type :=
| FileKML (file_kml : option upload)
| TitikKoordinat (coordinate_input : string).

Inductive range_type : Type :=
| Waktu          (* "Waktu (menit)" *)
| Jarak.         (* "Jarak (meter)" *)

(** The values of the widgets of one run of the script; [run_analysis] is
    the session flag once the button has been handled. *)
Record widgets : Type := {
  ui_input : input_type;
  ui_api_key : string;
  ui_range_type : range_type;
  ui_nilai_range : list Z;
  ui_profile_list : list string;
  ui_sampling : Z;
  run_analysis : bool
}.

Definition converted_range_of (w : widgets) : list Z :=
  match ui_range_type w with
  | Waktu => List.map (fun r => (r * 60)%Z) (ui_nilai_range w)
  | Jarak => ui_nilai_range w
  end.

(** The names the run binds ([path_kml] is unbound until assigned) and
    the temporary file it writes. *)
Record script_state : Type := {
  path_kml : option string;
  written : option upload
}.

Definition initial_state : script_state :=
  {| path_kml := None; written := None |}.

Definition assign_path_kml (path : string) (st : script_state)
    : script_state :=
  {| path_kml := Some path; written := written st |}.

Definition write_upload (u : upload) (st : script_state) : script_state :=
  {| path_kml := path_kml st; written := Some u |}.

Definition read_file_in (st : script_state) (path : string)
    : outcome geodataframe :=
  match written st with
  | Some u => parsed u
  | None => Raise (OtherException "no such file")
  end.

(** [s.split(",")]. *)
Fixpoint split_comma (s : string) : list string :=
  match s with
  | EmptyString => [EmptyString]
  | String c rest =>
      if Ascii.eqb c ","%char then EmptyString :: split_comma rest
      else match split_comma rest with
           | head :: tail => String c head :: tail
           | [] => [String c EmptyString]
           end
  end.

Definition float_error (s : string) : exn :=
  ValueError ("could not convert string to float: " ++ s)%string.

(** [lon, lat = map(float, parts)]: the items are converted one at a time
    as the unpacking asks for them, a third one included. *)
Definition unpack_lon_lat (parts : list string) : outcome (num * num) :=
  match parts with
  | [] => Raise (ValueError "not enough values to unpack (expected 2, got 0)")
  | a :: rest =>
      match float a with
      | None => Raise (float_error a)
      | Some lon =>
          match rest with
          | [] =>
              Raise (ValueError
                       "not enough values to unpack (expected 2, got 1)")
          | b :: rest' =>
              match float b with
              | None => Raise (float_error b)
              | Some lat =>
                  match rest' with
                  | [] => Return (lon, lat)
                  | c :: _ =>
                      match float c with
                      | None => Raise (float_error c)
                      | Some _ =>
                          Raise (ValueError
                                   "too many values to unpack (expected 2)")
                      end
                  end
              end
          end
      end
  end.

(** Run a computation on an object of its own. *)
Definition on_object {S O A} (o : O) (body : M O A) : M S A :=
  fun s =>
    match body o with
    | (r, _, t) => (r, s, t)
    end.

(** The locals of the single-point branch. *)
Record point_frame : Type := {
  m : folium_map;
  pt_area_summary : list (string * num);
  pt_total_area_m2 : num
}.

Definition pt_reset_total (fr : point_frame) : point_frame :=
  {| m := m fr; pt_area_summary := pt_area_summary fr;
     pt_total_area_m2 := int0 |}.

Definition pt_add_area (area_m2 : num) (fr : point_frame) : point_frame :=
  {| m := m fr; pt_area_summary := pt_area_summary fr;
     pt_total_area_m2 := add (pt_total_area_m2 fr) area_m2 |}.

Definition pt_add_layer (l : layer) (fr : point_frame) : point_frame :=
  {| m := {| map_location := map_location (m fr);
             layers := layers (m fr) ++ [l];
             fitted := fitted (m fr) |};
     pt_area_summary := pt_area_summary fr;
     pt_total_area_m2 := pt_total_area_m2 fr |}.

Definition pt_append_summary (profile : string) (fr : point_frame)
    : point_frame :=
  {| m := m fr;
     pt_area_summary :=
       pt_area_summary fr ++ [(profile, km2_of (pt_total_area_m2 fr))];
     pt_total_area_m2 := pt_total_area_m2 fr |}.

Definition pt_process_feature (profile warna_fill : string) (ft : feature)
    : M point_frame unit :=
  let waktu := (value ft / 60)%Z in
  let area_m2 := match area ft with
                 | Some a => a
                 | None => int0
                 end in
  modify (pt_add_area area_m2) ;;;
  modify (pt_add_layer
            (IsochroneLayer ft (layer_name waktu profile) warna_fill
               (2 # 5)%Q waktu (km2_of area_m2))).

(** The body of [for profile in profile_list] of the single-point
    branch. *)
Definition pt_process_profile (client : service) (converted_range : list Z)
    (lon lat : num) (profile : string) : M point_frame unit :=
  emit (StWriteProfile profile) ;;;
  let warna_fill := dict_get COLOR_MAP profile "#666666" in
  modify pt_reset_total ;;;
  isochrones <- retry_request
                  (client (isochrones_request (lon, lat) profile
                             converted_range) 0)
                  default_max_retries default_wait ;;
  for_each (features isochrones) (pt_process_feature profile warna_fill) ;;;
  modify (pt_append_summary profile).

(** The [try] block of the single-point branch and its handler. *)
Definition single_point (client : service) (coordinate_input : string)
    (converted_range : list Z) (profile_list : list string)
    : M script_state unit :=
  try_except
    (lonlat <- lift (unpack_lon_lat (split_comma coordinate_input)) ;;
     let lon := fst lonlat in
     let lat := snd lonlat in
     on_object
       {| m := {| map_location := (lat, lon); layers := []; fitted := false |};
          pt_area_summary := [];
          pt_total_area_m2 := int0 |}
       (for_each profile_list
          (pt_process_profile client converted_range lon lat) ;;;
        modify (pt_add_layer (Marker (lat, lon) "Titik Input")) ;;;
        modify (pt_add_layer LayerControl) ;;;
        emit StSubheader ;;;
        fr <- get ;;
        for_each (pt_area_summary fr)
          (fun item => emit (StMarkdown (fst item) (snd item))) ;;;
        fr <- get ;;
        emit (StFolium (Some (m fr)))))
    is_Exception
    (fun e => emit (StErrorCoordinate e)).

(** What the analyzer does once created, lines 238 to 242. *)
Definition analysis (client : service) (converted_range : list Z)
    (read_file : string -> outcome geodataframe)
    : M IsochroneAnalyzer unit :=
  ok <- load_kml read_file ;;
  if ok : bool then
    build_map ;;;
    generate_isochrones client converted_range ;;;
    display_summary ;;;
    show_map
  else ret tt.

(** The body of [if st.session_state.run_analysis:], lines 175 to 242. *)
Definition driver (client : service) (w : widgets) : M script_state unit :=
  let converted_range := converted_range_of w in
  if run_analysis w then
    match ui_input w with
    | FileKML file_kml =>
        modify (assign_path_kml "temp_uploaded.kml") ;;;
        emit (OpenFile "temp_uploaded.kml") ;;;
        match file_kml with
        | None =>
            raise (AttributeError "'NoneType' object has no attribute 'read'")
        | Some u =>
            modify (write_upload u) ;;;
            emit (FileWrite "temp_uploaded.kml")
        end
    | TitikKoordinat coordinate_input =>
        single_point client coordinate_input converted_range
          (ui_profile_list w)
    end ;;;
    st <- get ;;
    match path_kml st with
    | None => raise (NameError "path_kml")
    | Some path =>
        on_object
          (init (ui_api_key w) (Some path) converted_range
             (ui_profile_list w) (ui_sampling w))
          (analysis client converted_range (read_file_in st))
    end
  else ret tt.

Definition run (client : service) (w : widgets)
    : outcome unit * script_state * trace :=
  driver client w initial_state.

End Engine.

Arguments service num : clear implicits.
Arguments event num : clear implicits.
Arguments trace num : clear implicits.
Arguments M num S A : clear implicits.
Arguments IsochroneAnalyzer num : clear implicits.
Arguments frame num : clear implicits.
Arguments feature num : clear implicits.
Arguments response num : clear implicits.
Arguments geodataframe num : clear implicits.
Arguments folium_map num : clear implicits.
Arguments layer num : clear implicits.
Arguments point num : clear implicits.
Arguments widgets num : clear implicits.
Arguments upload num : clear implicits.

(** ** Exact rational arithmetic as an instance of the numbers

    Used to run the model on concrete inputs. *)

(** Rounding to the nearest integer, ties to even, as [round] does. *)
Definition round_half_even (y : Q) : Z :=
  let f := Qfloor y in
  match Qcompare (y - inject_Z f) (1 # 2) with
  | Lt => f
  | Gt => (f + 1)%Z
  | Eq => if Z.even f then f else (f + 1)%Z
  end.

Definition Q_round_ndigits (x : Q) (ndigits : Z) : Q :=
  if (0 <=? ndigits)%Z then
    let scale := inject_Z (10 ^ ndigits) in
    Qred (inject_Z (round_half_even (x * scale)) / scale)
  else
    let scale := inject_Z (10 ^ (- ndigits)) in
    Qred (inject_Z (round_half_even (x / scale)) * scale).

Definition digit_of (c : ascii) : option Z :=
  let n := nat_of_ascii c in
  if (48 <=? n)%nat && (n <=? 57)%nat then Some (Z.of_nat (n - 48)) else None.

(** The leading decimal digits of [s]: their value, how many they are, and
    what follows them. *)
Fixpoint read_digits (s : string) (acc : Z) (n : nat) : Z * nat * string :=
  match s with
  | EmptyString => (acc, n, s)
  | String c rest =>
      match digit_of c with
      | Some d => read_digits rest (acc * 10 + d)%Z (Datatypes.S n)
      | None => (acc, n, s)
      end
  end.

Definition Q_float_unsigned (s : string) : option Q :=
  let '(ip, n1, rest) := read_digits s 0%Z 0 in
  match rest with
  | EmptyString => if (n1 =? 0)%nat then None else Some (inject_Z ip)
  | String c rest' =>
      if Ascii.eqb c "."%char then
        let '(fp, n2, rest'') := read_digits rest' 0%Z 0 in
        match rest'' with
        | EmptyString =>
            if (n1 + n2 =? 0)%nat then None
            else
              let scale := (10 ^ Z.of_nat n2)%Z in
              Some (Qred (Qmake (ip * scale + fp) (Z.to_pos scale)))
        | String _ _ => None
        end
      else None
  end.

(** [float(s)] on plain signed decimal literals; the other spellings
    Python accepts (exponents, [inf], [nan], surrounding blanks) are not
    needed by the examples and are refused here. *)
Definition Q_float (s : string) : option Q :=
  match s with
  | String c rest =>
      if Ascii.eqb c "-"%char then option_map Qopp (Q_float_unsigned rest)
      else if Ascii.eqb c "+"%char then Q_float_unsigned rest
      else Q_float_unsigned s
  | EmptyString => None
  end.

#[export] Instance PyNumber_Q : PyNumber Q := {|
  int0 := 0%Q;
  add := fun a b => Qred (a + b);
  truediv := Qdiv;
  lit_1e6 := inject_Z 1000000;
  round_ndigits := Q_round_ndigits;
  float := Q_float;
  round_div_zero := eq_refl
|}.

(** ** Reading a run *)

Section Observations.

Context {num : Type} `{PyNumber num}.

Definition result_of {S A} (r : outcome A * S * trace num) : outcome A :=
  fst (fst r).

Definition state_of {S A} (r : outcome A * S * trace num) : S :=
  snd (fst r).

Definition events_of {S A} (r : outcome A * S * trace num) : trace num :=
  snd r.

(** The durations slept, in order. *)
Definition sleeps (t : trace num) : list Q :=
  flat_map (fun ev => match ev with
                      | Sleep d => [d]
                      | _ => []
                      end) t.

(** How many times the remote call was invoked. *)
Definition calls (t : trace num) : nat :=
  List.length (filter (fun ev => match ev with
                                 | Call _ => true
                                 | _ => false
                                 end) t).

(** The per-point failure reports, in order. *)
Definition point_errors (t : trace num) : list (nat * exn) :=
  flat_map (fun ev => match ev with
                      | StErrorPoint idx e => [(idx, e)]
                      | _ => []
                      end) t.

(** The call signalled the rate-limit condition. *)
Definition rate_limited {A} (o : outcome A) : bool :=
  match o with
  | Raise e => is_ApiError e
  | Return _ => false
  end.

(** What [K] rate-limited invocations in a row leave in the trace, from
    invocation number [from]: the call, the warning and the wait. *)
Definition retry_rounds (wait : Q) (from K : nat) : trace num :=
  flat_map (fun i => [Call i; StWarningRetry (i + 1) wait; Sleep wait])
           (seq from K).

(** The request of one sample point as the dispatcher issues it, through
    the retry executor: its outcome and its events. *)
Definition dispatch (client : service num) (converted_range : list Z)
    (profile : string) (item : nat * point num)
    : outcome (response num) * unit * trace num :=
  retry_request
    (client (isochrones_request (snd item) profile converted_range)
       (fst item))
    default_max_retries default_wait tt.

Definition area_or_zero (ft : feature num) : num :=
  match area ft with
  | Some a => a
  | None => int0
  end.

(** The plain running sum of the reported areas, from [start]. *)
Definition sum_areas (start : num) (l : list (feature num)) : num :=
  fold_left (fun acc ft => add acc (area_or_zero ft)) l start.

(** The features returned for one sample point: none when its request
    failed. *)
Definition point_features (client : service num) (converted_range : list Z)
    (profile : string) (item : nat * point num) : list (feature num) :=
  match result_of (dispatch client converted_range profile item) with
  | Return isochrones => features isochrones
  | Raise _ => []
  end.

(** The features returned for a profile: those of every sample point whose
    request succeeded, in the order of the points. *)
Definition returned_features (client : service num)
    (converted_range : list Z) (profile : string)
    (points : list (point num)) : list (feature num) :=
  flat_map (point_features client converted_range profile)
    (enumerate points).

(** The layer recorded for a feature by [generate_isochrones]. *)
Definition feature_layer (profile : string) (ft : feature num) : layer num :=
  IsochroneLayer ft (layer_name (value ft / 60) profile)
    (dict_get COLOR_MAP profile "#666666") (1 # 5)%Q (value ft / 60)%Z
    (km2_of (area_or_zero ft)).

(** Every vertex of every exterior ring, in the order in which rings and
    vertices are met. *)
Definition encounter_order (g : geodataframe num) : list (vertex (num:=num)) :=
  flat_map (fun geom => match geom with
                        | Polygon poly => exterior poly
                        | MultiPolygon geoms => flat_map exterior geoms
                        | OtherGeometry _ => []
                        end) (gdf_geometry g).

(** The number [V] of exterior-ring vertices over all polygon parts. *)
Definition total_vertices (g : geodataframe num) : nat :=
  list_sum
    (List.map (fun geom =>
                 match geom with
                 | Polygon poly => List.length (exterior poly)
                 | MultiPolygon geoms =>
                     list_sum (List.map (fun poly => List.length (exterior poly))
                                 geoms)
                 | OtherGeometry _ => 0
                 end) (gdf_geometry g)).

(** [ceil(V / N)]. *)
Definition ceil_div (V : nat) (N : Z) : Z :=
  Qceiling (inject_Z (Z.of_nat V) / inject_Z N).

(** The trace ends with the pause between two requests. *)
Definition ends_with_pause (t : trace num) : Prop :=
  exists before, t = before ++ [Sleep inter_request_delay].

(** The map with further layers on top. *)
Definition add_layers (ls : list (layer num)) (fm : folium_map num)
    : folium_map num :=
  {| map_location := map_location fm;
     layers := layers fm ++ ls;
     fitted := fitted fm |}.

(** The frame once the features [fts] have been recorded on the map [fm]
    and in the running total. *)
Definition record_features (profile : string) (fts : list (feature num))
    (fm : folium_map num) (fr : frame num) : frame num :=
  {| self := set_self_map
               (Some (add_layers (List.map (feature_layer profile) fts) fm))
               (self fr);
     total_area_m2 := sum_areas (total_area_m2 fr) fts |}.

(** The failure of one sample point, when its request failed. *)
Definition point_failure (client : service num) (converted_range : list Z)
    (profile : string) (item : nat * point num) : list (nat * exn) :=
  match result_of (dispatch client converted_range profile item) with
  | Return _ => []
  | Raise e => [(fst item, e)]
  end.

(** The events of one sample point: those of its request, then the pause
    when the request succeeded, the report when it failed. *)
Definition point_trace (client : service num) (converted_range : list Z)
    (profile : string) (item : nat * point num) : trace num :=
  events_of (dispatch client converted_range profile item)
    ++ [match result_of (dispatch client converted_range profile item) with
        | Return _ => Sleep inter_request_delay
        | Raise e => StErrorPoint (fst item) e
        end].

Definition profile_trace (client : service num) (converted_range : list Z)
    (points : list (point num)) (profile : string) : trace num :=
  StWriteProfile profile
    :: flat_map (point_trace client converted_range profile)
         (enumerate points).

(** The layers recorded for a profile. *)
Definition profile_layers (client : service num) (converted_range : list Z)
    (points : list (point num)) (profile : string) : list (layer num) :=
  List.map (feature_layer profile)
    (returned_features client converted_range profile points).

(** The failures of a profile, in the order of the points. *)
Definition profile_failures (client : service num)
    (converted_range : list Z) (points : list (point num))
    (profile : string) : list (nat * exn) :=
  flat_map (point_failure client converted_range profile)
    (enumerate points).

(** The summary entry of a profile: the plain sum of the areas of its
    returned features, divided by [1e6] and rounded to 2 decimals. *)
Definition summary_entry (client : service num) (converted_range : list Z)
    (points : list (point num)) (profile : string) : string * num :=
  (profile,
   km2_of (sum_areas int0
             (returned_features client converted_range profile points))).

(** The lines of the summary, as [st.markdown] writes them. *)
Definition markdown_lines (t : trace num) : list (string * num) :=
  flat_map (fun ev => match ev with
                      | StMarkdown p km2 => [(p, km2)]
                      | _ => []
                      end) t.

(** Every [N]-th vertex in encounter order, from the first one, as a
    sample point. *)
Definition sample_points (g : geodataframe num) (N : Z) : list (point num) :=
  stride (Z.to_nat N) 0
    (List.map (fun pt => (vx pt, vy pt)) (encounter_order g)).

(** The map [build_map] creates. *)
Definition built_map (g : geodataframe num) : folium_map num :=
  {| map_location := (snd (union_centroid g), fst (union_centroid g));
     layers := [KmlLayer g];
     fitted := true |}.

(** The names of the isochrone layers of the maps handed to
    [st_folium]. *)
Definition shown_layer_names (t : trace num) : list string :=
  flat_map (fun ev =>
              match ev with
              | StFolium (Some fm) =>
                  flat_map (fun l => match l with
                                     | IsochroneLayer _ name _ _ _ _ => [name]
                                     | _ => []
                                     end) (layers fm)
              | _ => []
              end) t.

End Observations.

(** ** Concrete inputs *)

Definition flaky : thunk nat :=
  fun i => if (i <? 2)%nat then Raise (ApiError "429") else Return 7.

Definition always_limited : thunk nat :=
  fun _ => Raise (ApiError "429").

Definition limited_then_timeout : thunk nat :=
  fun i => if (i <? 1)%nat then Raise (ApiError "429")
           else Raise (OtherException "timeout").

Definition vtx (x y : Z) : vertex (num:=Q) :=
  {| vx := inject_Z x; vy := inject_Z y; vz := None |}.

(** A polygon of 5 vertices, a multi-polygon of 3 and 4, and a placemark
    that is no polygon: 12 exterior-ring vertices. *)
Definition demo_gdf : geodataframe Q :=
  {| gdf_geometry :=
       [ Polygon {| exterior := [vtx 0 0; vtx 1 0; vtx 2 0; vtx 3 0; vtx 4 0];
                    interiors := [] |};
         OtherGeometry "Point";
         MultiPolygon
           [ {| exterior := [vtx 5 0; vtx 6 0; vtx 7 0]; interiors := [] |};
             {| exterior := [vtx 8 0; vtx 9 0; vtx 10 0; vtx 11 0];
                interiors := [] |} ] ];
     union_centroid := (inject_Z 5, inject_Z 0) |}.

Definition empty_gdf : geodataframe Q :=
  {| gdf_geometry := []; union_centroid := (0%Q, 0%Q) |}.

Definition two_features : response Q :=
  {| features :=
       [ {| value := 300; area := Some (inject_Z 1000000);
            feature_geometry := [] |};
         {| value := 600; area := None; feature_geometry := [] |} ] |}.

(** A service that answers the first sample point, is rate limited at
    every attempt for the second, times out for the others, and refuses
    the profile [foot-walking] altogether. *)
Definition demo_client : service Q :=
  fun req idx attempt =>
    if String.eqb (profile req) "foot-walking"
    then Raise (OtherException "profile not available")
    else match idx with
         | O => Return two_features
         | Datatypes.S O => Raise (ApiError "429")
         | _ => Raise (OtherException "timeout")
         end.

Definition timeout_client : service Q :=
  fun _ _ _ => Raise (OtherException "timeout").

(** The analyzer of a run on [demo_gdf] with a sampling interval of 5,
    once [load_kml] and [build_map] have run. *)
Definition demo_ready : IsochroneAnalyzer Q :=
  state_of
    (bind (load_kml (fun _ => Return demo_gdf)) (fun _ => build_map)
       (init "key" (Some "temp_uploaded.kml"%string) [300%Z]
          ["driving-car"%string; "foot-walking"%string] 5)).

Definition demo_map : folium_map Q :=
  {| map_location := (inject_Z 0, inject_Z 5);
     layers := [KmlLayer demo_gdf];
     fitted := true |}.

Definition demo_frame : frame Q :=
  {| self := demo_ready; total_area_m2 := 0%Q |}.

Definition empty_upload_widgets : widgets Q :=
  {| ui_input := FileKML (Some {| parsed := Return empty_gdf |});
     ui_api_key := "key";
     ui_range_type := Waktu;
     ui_nilai_range := [5%Z; 10%Z; 15%Z];
     ui_profile_list := ["driving-car"%string];
     ui_sampling := 20;
     run_analysis := true |}.

Definition malformed_point_widgets : widgets Q :=
  {| ui_input := TitikKoordinat "abc";
     ui_api_key := "key";
     ui_range_type := Waktu;
     ui_nilai_range := [5%Z];
     ui_profile_list := ["driving-car"%string];
     ui_sampling := 20;
     run_analysis := true |}.

Definition refused_point_widgets : widgets Q :=
  {| ui_input := TitikKoordinat "106.8,-6.2";
     ui_api_key := "key";
     ui_range_type := Waktu;
     ui_nilai_range := [5%Z];
     ui_profile_list := ["foot-walking"%string; "driving-car"%string];
     ui_sampling := 20;
     run_analysis := true |}.

Definition point_widgets : widgets Q :=
  {| ui_input := TitikKoordinat "106.8,-6.2";
     ui_api_key := "key";
     ui_range_type := Waktu;
     ui_nilai_range := [5%Z];
     ui_profile_list := ["driving-car"%string];
     ui_sampling := 20;
     run_analysis := true |}.

Definition demo_widgets : widgets Q :=
  {| ui_input := FileKML (Some {| parsed := Return demo_gdf |});
     ui_api_key := "key";
     ui_range_type := Waktu;
     ui_nilai_range := [5%Z];
     ui_profile_list := ["driving-car"%string; "foot-walking"%string];
     ui_sampling := 5;
     run_analysis := true |}.

(** A run in metres: thresholds of 1000 m on [demo_gdf]. *)
Definition distance_widgets : widgets Q :=
  {| ui_input := FileKML (Some {| parsed := Return demo_gdf |});
     ui_api_key := "key";
     ui_range_type := Jarak;
     ui_nilai_range := [1000%Z];
     ui_profile_list := ["driving-car"%string];
     ui_sampling := 20;
     run_analysis := true |}.

(** The service echoes each threshold it is sent as the [value] of a
    feature. *)
Definition echo_client : service Q :=
  fun req _ _ =>
    Return {| features :=
                List.map (fun r => {| value := r;
                                      area := Some (inject_Z 2500000);
                                      feature_geometry := [] |})
                  (range req) |}.

(** The scenario of 100 vertices: one ring, and a service that returns
    three features of 1,000,000 square metres per request. *)
Definition ring_100 : geodataframe Q :=
  {| gdf_geometry :=
       [ Polygon {| exterior :=
                      List.map (fun i => vtx (Z.of_nat i) 0) (seq 0 100);
                    interiors := [] |} ];
     union_centroid := (inject_Z 50, inject_Z 0) |}.

Definition unit_area_client : service Q :=
  fun req _ _ =>
    Return {| features :=
                List.map (fun r => {| value := r;
                                      area := Some (inject_Z 1000000);
                                      feature_geometry := [] |})
                  (range req) |}.

Definition scenario_widgets : widgets Q :=
  {| ui_input := FileKML (Some {| parsed := Return ring_100 |});
     ui_api_key := "key";
     ui_range_type := Waktu;
     ui_nilai_range := [5%Z; 10%Z; 15%Z];
     ui_profile_list := ["driving-car"%string; "foot-walking"%string];
     ui_sampling := 20;
     run_analysis := true |}.

(** ** Further observations *)

Section FurtherObservations.

Context {num : Type} `{PyNumber num}.

(** The same geometries with the holes of their polygons forgotten. *)
Definition without_interiors (g : geodataframe num) : geodataframe num :=
  let solid := fun poly : polygon (num:=num) =>
                 {| exterior := exterior poly; interiors := [] |} in
  {| gdf_geometry :=
       List.map (fun geom => match geom with
                             | Polygon poly => Polygon (solid poly)
                             | MultiPolygon geoms =>
                                 MultiPolygon (List.map solid geoms)
                             | OtherGeometry t => OtherGeometry t
                             end) (gdf_geometry g);
     union_centroid := union_centroid g |}.

(** The sample points a newly created analyzer holds after [load_kml]. *)
Definition sampled_by (read_file : string -> outcome (geodataframe num))
    (path : string) (N : Z) : list (point num) :=
  koordinat_list
    (state_of (load_kml read_file (init "" (Some path) [] [] N))).

(** The single-point branch issues its requests for the point number 0. *)
Definition pt_dispatch (client : service num) (converted_range : list Z)
    (lon lat : num) (profile : string)
    : outcome (response num) * unit * trace num :=
  dispatch client converted_range profile (0, (lon, lat)).

(** The events of one profile of the single-point branch: the
    announcement and the request. *)
Definition pt_profile_trace (client : service num)
    (converted_range : list Z) (lon lat : num) (profile : string)
    : trace num :=
  StWriteProfile profile
    :: events_of (pt_dispatch client converted_range lon lat profile).

(** The summary entry of a profile in the single-point branch. *)
Definition pt_entry (client : service num) (converted_range : list Z)
    (lon lat : num) (profile : string) : string * num :=
  (profile,
   km2_of (sum_areas int0
             (point_features client converted_range profile
                (0, (lon, lat))))).

(** What the loop over the features of the single-point branch does to
    its locals. *)
Definition pt_record_features (profile clr : string)
    (fts : list (feature num)) (fr : point_frame (num:=num))
    : point_frame (num:=num) :=
  fold_left
    (fun f ft =>
       pt_add_layer
         (IsochroneLayer ft (layer_name (value ft / 60) profile) clr
            (2 # 5)%Q (value ft / 60)%Z (km2_of (area_or_zero ft)))
         (pt_add_area (area_or_zero ft) f))
    fts fr.

(** No character of the string is a comma. *)
Definition comma_free (s : string) : Prop :=
  ~ In ","%char (list_ascii_of_string s).

End FurtherObservations.

(** ** Further concrete inputs *)

(** A triangle with a triangular hole. *)
Definition holed_gdf : geodataframe Q :=
  {| gdf_geometry :=
       [ Polygon {| exterior := [vtx 0 0; vtx 4 0; vtx 4 4];
                    interiors := [[vtx 1 1; vtx 2 1; vtx 2 2]] |} ];
     union_centroid := (inject_Z 3, inject_Z 1) |}.

(** Two placemarks and no polygon. *)
Definition placemark_gdf : geodataframe Q :=
  {| gdf_geometry := [OtherGeometry "Point"; OtherGeometry "LineString"];
     union_centroid := (inject_Z 1, inject_Z 1) |}.

Definition placemark_widgets : widgets Q :=
  {| ui_input := FileKML (Some {| parsed := Return placemark_gdf |});
     ui_api_key := "key";
     ui_range_type := Waktu;
     ui_nilai_range := [5%Z];
     ui_profile_list := ["driving-car"%string; "foot-walking"%string];
     ui_sampling := 20;
     run_analysis := true |}.

Definition no_upload_widgets : widgets Q :=
  {| ui_input := FileKML None;
     ui_api_key := "key";
     ui_range_type := Waktu;
     ui_nilai_range := [5%Z];
     ui_profile_list := ["driving-car"%string];
     ui_sampling := 20;
     run_analysis := true |}.

Definition rejected_upload : upload Q :=
  {| parsed := Raise (OtherException "not a KML document") |}.

Definition rejected_upload_widgets : widgets Q :=
  {| ui_input := FileKML (Some rejected_upload);
     ui_api_key := "key";
     ui_range_type := Waktu;
     ui_nilai_range := [5%Z];
     ui_profile_list := ["driving-car"%string];
     ui_sampling := 20;
     run_analysis := true |}.

(** A frame whose analyzer has no map: [build_map] has not run. *)
Definition unmapped_frame : frame Q :=
  {| self := init "key" None [300%Z] ["driving-car"%string] 20;
     total_area_m2 := 0%Q |}.

(** A single point with three profiles, the second of which
    [demo_client] refuses. *)
Definition late_refusal_widgets : widgets Q :=
  {| ui_input := TitikKoordinat "106.8,-6.2";
     ui_api_key := "key";
     ui_range_type := Waktu;
     ui_nilai_range := [5%Z];
     ui_profile_list :=
       ["driving-car"%string; "foot-walking"%string;
        "cycling-regular"%string];
     ui_sampling := 20;
     run_analysis := true |}.

Definition jakarta_lon : Q := (534 # 5)%Q.
Definition jakarta_lat : Q := (- (31 # 5))%Q.

Example Q_float_lon : Q_float "106.8" = Some (534 # 5)%Q.
Proof. reflexivity. Qed.

Example Q_float_lat : Q_float "-6.2" = Some (- (31 # 5))%Q.
Proof. reflexivity. Qed.

Example Q_float_refused : Q_float "abc" = None.
Proof. reflexivity. Qed.

Example Q_round_tie : Q_round_ndigits (1 # 8) 2 = (3 # 25)%Q.
Proof. reflexivity. Qed.

Example km2_scenario : km2_of (num:=Q) (inject_Z 15000000) = inject_Z 15.
Proof. reflexivity. Qed.

(** * Properties *)

(** ** The retry executor *)

Section RetryProperties.

Context {num : Type} `{PyNumber num}.
Context {S A : Type}.

Implicit Types (func : thunk A) (wait : Q) (s : S).

Local Abbreviation retry_loop := (retry_loop (num:=num)).
Local Abbreviation retry_request := (retry_request (num:=num)).
Local Abbreviation retry_rounds := (retry_rounds (num:=num)).

Lemma retry_loop_exhausted func wait attempt s :
  retry_loop func wait attempt 0 s
  = (Raise (RuntimeError exhausted_message), s, []).
Proof. reflexivity. Qed.

Lemma retry_loop_return func wait attempt n s r :
  func attempt = Return r ->
  retry_loop func wait attempt (Datatypes.S n) s
  = (Return r, s, [Call attempt]).
Proof.
  intros E. cbn [retry_loop].
  unfold try_except, bind, emit, lift. rewrite E. reflexivity.
Qed.

Lemma retry_loop_propagate func wait attempt n s e :
  func attempt = Raise e ->
  is_ApiError e = false ->
  retry_loop func wait attempt (Datatypes.S n) s
  = (Raise e, s, [Call attempt]).
Proof.
  intros E NA. cbn [retry_loop].
  unfold try_except, bind, emit, lift. rewrite E, NA. reflexivity.
Qed.

Lemma retry_loop_again func wait attempt n s :
  rate_limited (func attempt) = true ->
  retry_loop func wait attempt (Datatypes.S n) s
  = let '(r, s', t) := retry_loop func wait (Datatypes.S attempt) n s in
    (r, s', [Call attempt; StWarningRetry (attempt + 1) wait; Sleep wait]
            ++ t).
Proof.
  intros RL. cbn [retry_loop].
  unfold try_except at 1. unfold bind at 1. unfold emit at 1.
  unfold lift at 1.
  destruct (func attempt) as [r | e]; [discriminate RL |].
  cbn in RL. cbn. rewrite RL.
  unfold bind, emit.
  destruct (retry_loop func wait (Datatypes.S attempt) n s) as [[r s'] t].
  reflexivity.
Qed.

(** [K] rate-limited invocations in a row use up [K] iterations. *)
Lemma retry_loop_rounds func wait K :
  forall attempt n s,
    (forall i, i < K -> rate_limited (func (attempt + i)) = true) ->
    retry_loop func wait attempt (K + n) s
    = let '(r, s', t) := retry_loop func wait (attempt + K) n s in
      (r, s', retry_rounds wait attempt K ++ t).
Proof.
  induction K as [| K IH]; intros attempt n s RL.
  - rewrite Nat.add_0_r. cbn.
    destruct (retry_loop func wait attempt n s) as [[r s'] t]. reflexivity.
  - cbn [Nat.add]. rewrite retry_loop_again.
    + rewrite IH.
      * replace (Datatypes.S attempt + K) with (attempt + Datatypes.S K)
          by lia.
        destruct (retry_loop func wait (attempt + Datatypes.S K) n s)
          as [[r s'] t].
        reflexivity.
      * intros i Hi.
        replace (Datatypes.S attempt + i) with (attempt + Datatypes.S i)
          by lia.
        apply RL. lia.
    + specialize (RL 0). rewrite Nat.add_0_r in RL. apply RL. lia.
Qed.

Lemma sleeps_app (t1 t2 : trace num) :
  sleeps (t1 ++ t2) = sleeps t1 ++ sleeps t2.
Proof. apply flat_map_app. Qed.

Lemma calls_app (t1 t2 : trace num) : calls (t1 ++ t2) = calls t1 + calls t2.
Proof. unfold calls at 1. rewrite filter_app, length_app. reflexivity. Qed.

Lemma sleeps_retry_rounds wait from K :
  sleeps (retry_rounds wait from K) = repeat wait K.
Proof.
  revert from. induction K as [| K IH]; intros from; [reflexivity |].
  unfold retry_rounds. cbn [seq flat_map].
  rewrite sleeps_app. fold (retry_rounds wait (Datatypes.S from) K).
  rewrite IH. reflexivity.
Qed.

Lemma calls_retry_rounds wait from K :
  calls (retry_rounds wait from K) = K.
Proof.
  revert from. induction K as [| K IH]; intros from; [reflexivity |].
  unfold retry_rounds. cbn [seq flat_map].
  rewrite calls_app. fold (retry_rounds wait (Datatypes.S from) K).
  rewrite IH. reflexivity.
Qed.

(** C4. Retry executor contract.  When the call signals the rate-limit
    condition [K] times, with [K < max_retries], and then returns [r],
    [retry_request] returns [r], leaves the state alone, has slept
    exactly [K] times (each time for [wait]) and has invoked the call
    [K + 1] times.  When the call signals the rate-limit condition at
    every attempt, [retry_request] invokes it exactly [max_retries] times
    (none when [max_retries] is negative) and then raises the
    [RuntimeError] of exhaustion. *)
Theorem retry_request_contract func (max_retries : Z) wait s :
  (forall (K : nat) (r : A),
      (Z.of_nat K < max_retries)%Z ->
      (forall i, i < K -> rate_limited (func i) = true) ->
      func K = Return r ->
      result_of (retry_request func max_retries wait s) = Return r /\
      state_of (retry_request func max_retries wait s) = s /\
      sleeps (events_of (retry_request func max_retries wait s))
      = repeat wait K /\
      calls (events_of (retry_request func max_retries wait s)) = K + 1)
  /\
  ((forall i, (Z.of_nat i < max_retries)%Z ->
              rate_limited (func i) = true) ->
   result_of (retry_request func max_retries wait s)
   = Raise (RuntimeError exhausted_message) /\
   state_of (retry_request func max_retries wait s) = s /\
   Z.of_nat (calls (events_of (retry_request func max_retries wait s)))
   = Z.max 0 max_retries).
Proof.
  unfold retry_request. split.
  - intros K r HK RL OK.
    replace (Z.to_nat max_retries)
      with (K + Datatypes.S (Z.to_nat max_retries - K - 1)) by lia.
    rewrite retry_loop_rounds by exact RL.
    cbn [Nat.add]. rewrite (retry_loop_return _ _ _ _ _ r OK).
    unfold result_of, state_of, events_of. cbn [fst snd].
    rewrite sleeps_app, calls_app, sleeps_retry_rounds, calls_retry_rounds.
    cbn. rewrite app_nil_r. auto.
  - intros RL.
    replace (Z.to_nat max_retries) with (Z.to_nat max_retries + 0) by lia.
    rewrite retry_loop_rounds.
    + rewrite retry_loop_exhausted.
      unfold result_of, state_of, events_of. cbn [fst snd].
      rewrite app_nil_r, calls_retry_rounds. repeat split. lia.
    + intros i Hi. apply RL. lia.
Qed.

(** C5. Only the rate-limit condition is retried.  When the call has
    signalled the rate-limit condition [K] times and then fails with an
    exception [e] that is not an [ApiError], [retry_request] raises [e]
    itself and nothing follows the failing invocation in the trace: no
    warning, no wait, no further invocation.  When [e] is an [ApiError]
    instead, the warning and the wait do follow. *)
Theorem only_rate_limit_is_retried func (max_retries : Z) wait s
    (K : nat) (e : exn) :
  (Z.of_nat K < max_retries)%Z ->
  (forall i, i < K -> rate_limited (func i) = true) ->
  func K = Raise e ->
  (is_ApiError e = false ->
   retry_request func max_retries wait s
   = (Raise e, s, retry_rounds wait 0 K ++ [Call K]))
  /\
  (is_ApiError e = true ->
   exists rest,
     events_of (retry_request func max_retries wait s)
     = retry_rounds wait 0 K
         ++ [Call K; StWarningRetry (K + 1) wait; Sleep wait] ++ rest).
Proof.
  intros HK RL E. unfold retry_request.
  replace (Z.to_nat max_retries)
    with (K + Datatypes.S (Z.to_nat max_retries - K - 1)) by lia.
  rewrite retry_loop_rounds by exact RL.
  cbn [Nat.add]. split; intros NA.
  - rewrite (retry_loop_propagate _ _ _ _ _ e E NA). reflexivity.
  - rewrite retry_loop_again by (rewrite E; exact NA).
    destruct (retry_loop func wait (Datatypes.S K)
                (Z.to_nat max_retries - K - 1) s) as [[r s'] t].
    exists t. reflexivity.
Qed.

End RetryProperties.

(** ** The boundary extractor *)

Section BoundaryProperties.

Context {num : Type} `{PyNumber num}.

Implicit Types (g : geodataframe num) (a : IsochroneAnalyzer num).

Lemma stride_length {X} (step : nat) (l : list X) :
  1 <= step ->
  forall skip,
    List.length (stride step skip l)
    = (List.length l + step - 1 - skip) / step.
Proof.
  intros Hstep. induction l as [| x rest IH]; intros skip.
  - cbn. symmetry. apply Nat.div_small. lia.
  - destruct skip as [| k]; cbn [stride List.length].
    + rewrite IH.
      replace (Datatypes.S (List.length rest) + step - 1 - 0)
        with (List.length rest + 1 * step) by lia.
      rewrite Nat.div_add by lia.
      replace (List.length rest + step - 1 - pred step)
        with (List.length rest) by lia.
      lia.
    + rewrite IH. f_equal. lia.
Qed.

Lemma stride_nth_error {X} (step : nat) (l : list X) :
  1 <= step ->
  forall skip i,
    nth_error (stride step skip l) i = nth_error l (skip + i * step).
Proof.
  intros Hstep. induction l as [| x rest IH]; intros skip i.
  - cbn. destruct i, (skip + _); reflexivity.
  - destruct skip as [| k]; cbn [stride].
    + destruct i as [| i]; [reflexivity |].
      cbn [nth_error]. rewrite IH.
      replace (0 + Datatypes.S i * step)
        with (Datatypes.S (pred step + i * step)) by lia.
      reflexivity.
    + rewrite IH. reflexivity.
Qed.

Lemma extend_multipolygon (geoms : list (polygon (num:=num))) :
  forall acc,
    fold_left (fun acc poly => acc ++ exterior poly) geoms acc
    = acc ++ flat_map exterior geoms.
Proof.
  induction geoms as [| poly rest IH]; intros acc; cbn.
  - now rewrite app_nil_r.
  - rewrite IH, <- app_assoc. reflexivity.
Qed.

Lemma extend_boundary_fold (geoms : list (geometry (num:=num))) :
  forall acc,
    fold_left extend_boundary geoms acc
    = acc ++ encounter_order {| gdf_geometry := geoms;
                                union_centroid := (int0, int0) |}.
Proof.
  unfold encounter_order. cbn [gdf_geometry].
  induction geoms as [| geom rest IH]; intros acc; cbn.
  - now rewrite app_nil_r.
  - rewrite IH. destruct geom as [poly | parts | other]; cbn.
    + now rewrite <- app_assoc.
    + now rewrite extend_multipolygon, <- app_assoc.
    + reflexivity.
Qed.

(** The loops of [load_kml] collect the vertices in encounter order. *)
Lemma boundary_points_encounter_order g :
  boundary_points_of g = encounter_order g.
Proof.
  unfold boundary_points_of. rewrite extend_boundary_fold. reflexivity.
Qed.

Lemma total_vertices_length g :
  total_vertices g = List.length (encounter_order g).
Proof.
  unfold total_vertices, encounter_order.
  induction (gdf_geometry g) as [| geom rest IH]; [reflexivity |].
  cbn [flat_map]. rewrite length_app, <- IH.
  rewrite map_cons. change (list_sum (?x :: ?l)) with (x + list_sum l).
  f_equal.
  destruct geom as [poly | geoms | other]; try reflexivity.
  induction geoms as [| poly more IHg]; [reflexivity |].
  cbn [flat_map]. rewrite length_app, <- IHg. reflexivity.
Qed.

Lemma ceil_div_nat (V : nat) (N : Z) :
  (0 < N)%Z ->
  ceil_div V N = Z.of_nat ((V + Z.to_nat N - 1) / Z.to_nat N).
Proof.
  intros HN. unfold ceil_div.
  destruct N as [| p | p]; try lia.
  unfold Qceiling, Qfloor, Qdiv, Qinv, Qmult, Qopp, inject_Z.
  cbn [Qnum Qden].
  rewrite Nat2Z.inj_div, Z2Nat.id by lia.
  replace (Z.of_nat (V + Z.to_nat (Z.pos p) - 1))
    with (Z.of_nat V + Z.pos p - 1)%Z by lia.
  replace (Z.pos (1 * p)) with (Z.pos p) by lia.
  set (v := Z.of_nat V).
  replace (- (v * 1))%Z with (- v)%Z by lia.
  apply Z.div_unique with (r := (Z.pos p - 1 - (- v) mod Z.pos p)%Z).
  - left. pose proof (Z.mod_pos_bound (- v) (Z.pos p)). lia.
  - pose proof (Z.div_mod (- v) (Z.pos p)). lia.
Qed.

(** What [load_kml] does on a file that parses. *)
Lemma load_kml_run read_file a path g :
  file_kml a = Some path ->
  read_file path = Return g ->
  load_kml read_file a
  = if gdf_empty g then (Return false, a, [StErrorKml])
    else
      match slice_step
              (List.map (fun pt => (vx pt, vy pt)) (boundary_points_of g))
              (sampling_interval a)
      with
      | Return sampled =>
          (Return true,
           set_koordinat_list sampled
             (set_centroid (union_centroid g) (set_gdf_kml g a)),
           [StInfoPoints (List.length sampled)])
      | Raise e =>
          (Raise e, set_centroid (union_centroid g) (set_gdf_kml g a), [])
      end.
Proof.
  intros Hpath Hread.
  unfold load_kml, bind, get, lift. rewrite Hpath, Hread.
  destruct (gdf_empty g); [reflexivity |].
  cbn.
  destruct (slice_step _ _); reflexivity.
Qed.

(** C3. Boundary sampling.  On a newly created analyzer whose file parses
    to a geometry with [V] exterior-ring vertices over all its polygon
    parts, and for a sampling interval [N >= 1], [load_kml] leaves
    exactly [ceil(V / N)] sample points in [koordinat_list], and the
    sample point number [i] is the vertex number [i * N] in encounter
    order (its first two components): the original order is kept. *)
Theorem load_kml_sample_points
    (read_file : string -> outcome (geodataframe num))
    (key path : string) (list_menit : list Z) (profiles : list string)
    (N : Z) g :
  read_file path = Return g ->
  (0 < N)%Z ->
  let sampled :=
    koordinat_list
      (state_of (load_kml read_file
                   (init key (Some path) list_menit profiles N))) in
  Z.of_nat (List.length sampled) = ceil_div (total_vertices g) N /\
  forall i,
    i < List.length sampled ->
    nth_error sampled i
    = option_map (fun pt => (vx pt, vy pt))
        (nth_error (encounter_order g) (i * Z.to_nat N)).
Proof.
  intros Hread HN sampled. subst sampled.
  rewrite (load_kml_run read_file
             (init key (Some path) list_menit profiles N) path g
             eq_refl Hread).
  rewrite ceil_div_nat by exact HN.
  rewrite total_vertices_length, <- boundary_points_encounter_order.
  destruct (gdf_empty g) eqn:Hempty.
  - unfold gdf_empty in Hempty. unfold boundary_points_of.
    destruct (gdf_geometry g); [| discriminate].
    cbn. split; [| intros i Hi; lia].
    rewrite Nat.div_small; lia.
  - unfold slice_step. cbn [init sampling_interval].
    destruct (Z.eqb_spec N 0) as [| _]; [lia |].
    destruct (Z.ltb_spec 0 N) as [_ |]; [| lia].
    unfold state_of. cbn [fst snd set_koordinat_list koordinat_list].
    split.
    + rewrite stride_length by lia. rewrite length_map.
      f_equal. f_equal. lia.
    + intros i _. rewrite stride_nth_error by lia.
      cbn [Nat.add]. apply nth_error_map.
Qed.

End BoundaryProperties.

(** ** The request dispatcher and the aggregation *)

Section DispatchProperties.

Context {num : Type} `{PyNumber num}.

Variable client : service num.
Variable converted_range : list Z.

Implicit Types (fr : frame num) (a : IsochroneAnalyzer num)
  (fm : folium_map num) (item : nat * point num) (profile : string).

Local Abbreviation body profile :=
  (process_point client converted_range profile
     (dict_get COLOR_MAP profile "#666666")).

(** The retry executor neither reads nor writes the state. *)
Lemma retry_loop_stateless {S A} (func : thunk A) wait n :
  forall attempt (s : S),
    retry_loop (num:=num) func wait attempt n s
    = (result_of (retry_loop (num:=num) func wait attempt n tt), s,
       events_of (retry_loop (num:=num) func wait attempt n tt)).
Proof.
  induction n as [| n IH]; intros attempt s; [reflexivity |].
  cbn [retry_loop]. unfold try_except, bind, emit, lift.
  destruct (func attempt) as [r | e]; [reflexivity |].
  cbn. destruct (is_ApiError e); [| reflexivity].
  rewrite (IH (Datatypes.S attempt) s).
  destruct (retry_loop func wait (Datatypes.S attempt) n tt) as [[r u] t].
  reflexivity.
Qed.

Lemma dispatch_run profile item fr :
  retry_request
    (client (isochrones_request (snd item) profile converted_range)
       (fst item))
    default_max_retries default_wait fr
  = (result_of (dispatch client converted_range profile item), fr,
     events_of (dispatch client converted_range profile item)).
Proof. unfold retry_request, dispatch. apply retry_loop_stateless. Qed.

Lemma for_each_app {S X} (l1 l2 : list X) (f : X -> M num S unit) :
  forall s,
    for_each (l1 ++ l2) f s
    = match for_each l1 f s with
      | (Return _, s1, t1) =>
          let '(r, s2, t2) := for_each l2 f s1 in (r, s2, t1 ++ t2)
      | (Raise e, s1, t1) => (Raise e, s1, t1)
      end.
Proof.
  induction l1 as [| x rest IH]; intros s.
  - cbn. destruct (for_each l2 f s) as [[r s2] t2]. reflexivity.
  - cbn [app for_each]. unfold bind.
    destruct (f x s) as [[[u | e] s1] t1]; [| reflexivity].
    rewrite IH.
    destruct (for_each rest f s1) as [[[u' | e'] s2] t2]; [| reflexivity].
    destruct (for_each l2 f s2) as [[r s3] t3].
    now rewrite app_assoc.
Qed.

Lemma record_features_nil profile fm fr :
  self_map (self fr) = Some fm ->
  record_features profile [] fm fr = fr.
Proof.
  destruct fr as [a total], a, fm. cbn. intros ->.
  unfold record_features, add_layers, set_self_map. cbn.
  now rewrite app_nil_r.
Qed.

Lemma record_features_app profile (fts1 fts2 : list (feature num)) fm fr :
  record_features profile fts2
    (add_layers (List.map (feature_layer profile) fts1) fm)
    (record_features profile fts1 fm fr)
  = record_features profile (fts1 ++ fts2) fm fr.
Proof.
  unfold record_features, add_layers, set_self_map, sum_areas. cbn.
  rewrite map_app, fold_left_app, <- app_assoc. reflexivity.
Qed.

(** The loop over the features of a response, when the map exists. *)
Lemma features_loop_run profile (fts : list (feature num)) :
  forall fr fm,
    self_map (self fr) = Some fm ->
    for_each fts
      (process_feature profile (dict_get COLOR_MAP profile "#666666")) fr
    = (Return tt, record_features profile fts fm fr, []).
Proof.
  induction fts as [| ft rest IH]; intros fr fm Hmap.
  - cbn. now rewrite record_features_nil.
  - cbn [for_each]. unfold bind at 1.
    assert (Hstep :
      process_feature profile (dict_get COLOR_MAP profile "#666666") ft fr
      = (Return tt, record_features profile [ft] fm fr, [])).
    { unfold process_feature, bind, modify, get, lift. cbn.
      rewrite Hmap. reflexivity. }
    rewrite Hstep.
    rewrite (IH (record_features profile [ft] fm fr)
               (add_layers [feature_layer profile ft] fm) eq_refl).
    change [feature_layer profile ft]
      with (List.map (feature_layer profile) [ft]).
    rewrite record_features_app. reflexivity.
Qed.

(** A sample point whose request failed. *)
Lemma process_point_failed profile clr item fr e :
  result_of (dispatch client converted_range profile item) = Raise e ->
  process_point client converted_range profile clr item fr
  = (Return tt, fr,
     events_of (dispatch client converted_range profile item)
       ++ [StErrorPoint (fst item) e]).
Proof.
  intros Hfail. unfold process_point, try_except.
  unfold bind at 1. rewrite dispatch_run, Hfail. reflexivity.
Qed.

(** A sample point whose request succeeded, when the map exists. *)
Lemma process_point_returned profile item fr fm isochrones :
  result_of (dispatch client converted_range profile item)
  = Return isochrones ->
  self_map (self fr) = Some fm ->
  body profile item fr
  = (Return tt, record_features profile (features isochrones) fm fr,
     events_of (dispatch client converted_range profile item)
       ++ [Sleep inter_request_delay]).
Proof.
  intros Hok Hmap. unfold process_point, try_except.
  unfold bind at 1. rewrite dispatch_run, Hok.
  unfold bind at 1. rewrite (features_loop_run _ _ _ fm Hmap).
  reflexivity.
Qed.

(** Whatever happens to a sample point, its iteration ends normally: the
    handler takes every exception. *)
Lemma process_point_returns profile clr item fr :
  result_of (process_point client converted_range profile clr item fr)
  = Return tt.
Proof.
  unfold process_point, try_except.
  destruct (bind _ _ fr) as [[[[] | e] fr1] t1]; reflexivity.
Qed.

Lemma points_loop_returns profile clr (items : list (nat * point num)) :
  forall fr,
    result_of
      (for_each items (process_point client converted_range profile clr) fr)
    = Return tt.
Proof.
  induction items as [| item rest IH]; intros fr; [reflexivity |].
  cbn [for_each]. unfold bind.
  pose proof (process_point_returns profile clr item fr) as Hpt.
  destruct (process_point _ _ _ _ item fr) as [[r fr1] t1].
  cbn in Hpt. subst r.
  specialize (IH fr1).
  destruct (for_each rest _ fr1) as [[r fr2] t2]. exact IH.
Qed.

(** The loop over the sample points of a profile, when the map exists. *)
Lemma points_loop_run profile (items : list (nat * point num)) :
  forall fr fm,
    self_map (self fr) = Some fm ->
    for_each items (body profile) fr
    = (Return tt,
       record_features profile
         (flat_map (point_features client converted_range profile) items)
         fm fr,
       flat_map (point_trace client converted_range profile) items).
Proof.
  induction items as [| item rest IH]; intros fr fm Hmap.
  - cbn. now rewrite record_features_nil.
  - cbn [for_each flat_map]. unfold bind, point_features at 1, point_trace at 1.
    destruct (result_of (dispatch client converted_range profile item))
      as [isochrones | e] eqn:Hres.
    + rewrite (process_point_returned _ _ _ fm _ Hres Hmap).
      rewrite (IH (record_features profile (features isochrones) fm fr)
                 (add_layers
                    (List.map (feature_layer profile) (features isochrones))
                    fm) eq_refl).
      rewrite record_features_app. reflexivity.
    + rewrite (process_point_failed _ _ _ _ _ Hres).
      rewrite (IH fr fm Hmap). reflexivity.
Qed.

(** One profile, when the map exists. *)
Lemma process_profile_run profile a fm :
  self_map a = Some fm ->
  process_profile client converted_range profile a
  = (Return tt,
     set_area_summary
       (area_summary a
          ++ [summary_entry client converted_range (koordinat_list a)
                profile])
       (set_self_map
          (Some (add_layers
                   (profile_layers client converted_range (koordinat_list a)
                      profile) fm)) a),
     profile_trace client converted_range (koordinat_list a) profile).
Proof.
  intros Hmap. unfold process_profile, bind, emit, get, with_total.
  rewrite (points_loop_run profile _
             {| self := a; total_area_m2 := int0 |} fm Hmap).
  unfold modify. cbn. rewrite app_nil_r. reflexivity.
Qed.

(** The loop over the profiles, when the map exists. *)
Lemma profiles_loop_run (profiles : list string) :
  forall a fm,
    self_map a = Some fm ->
    for_each profiles (process_profile client converted_range) a
    = (Return tt,
       set_area_summary
         (area_summary a
            ++ List.map
                 (summary_entry client converted_range (koordinat_list a))
                 profiles)
         (set_self_map
            (Some (add_layers
                     (flat_map
                        (profile_layers client converted_range
                           (koordinat_list a)) profiles) fm)) a),
       flat_map (profile_trace client converted_range (koordinat_list a))
         profiles).
Proof.
  induction profiles as [| profile rest IH]; intros a fm Hmap.
  - cbn. destruct a, fm. cbn in Hmap. subst.
    unfold set_area_summary, set_self_map, add_layers. cbn.
    now rewrite !app_nil_r.
  - cbn [for_each]. unfold bind.
    rewrite (process_profile_run profile a fm Hmap).
    erewrite IH by reflexivity.
    unfold set_area_summary, set_self_map, add_layers. cbn.
    rewrite <- !app_assoc. reflexivity.
Qed.

(** The whole of [generate_isochrones], when the map and the centroid
    exist, as [build_map] leaves them. *)
Lemma generate_isochrones_run a fm c :
  self_map a = Some fm ->
  centroid a = Some c ->
  generate_isochrones client converted_range a
  = (Return tt,
     set_area_summary
       (area_summary a
          ++ List.map
               (summary_entry client converted_range (koordinat_list a))
               (profile_list a))
       (set_self_map
          (Some (add_layers
                   (flat_map
                      (profile_layers client converted_range
                         (koordinat_list a)) (profile_list a)
                    ++ [Marker (snd c, fst c) "Titik Pusat"; LayerControl])
                   fm)) a),
     flat_map (profile_trace client converted_range (koordinat_list a))
       (profile_list a)).
Proof.
  intros Hmap Hc. unfold generate_isochrones.
  unfold bind at 1. unfold get at 1. unfold bind at 1.
  rewrite (profiles_loop_run (profile_list a) a fm Hmap).
  unfold bind, get, lift, modify. cbn. rewrite Hc. cbn.
  rewrite !app_nil_r.
  unfold set_area_summary, set_self_map, add_layers. cbn.
  rewrite <- !app_assoc. reflexivity.
Qed.

(** The summary survives the end of [generate_isochrones] whether or not
    the centroid exists. *)
Lemma generate_isochrones_summary a fm :
  self_map a = Some fm ->
  area_summary (state_of (generate_isochrones client converted_range a))
  = area_summary a
      ++ List.map (summary_entry client converted_range (koordinat_list a))
           (profile_list a).
Proof.
  intros Hmap. unfold generate_isochrones.
  unfold bind at 1. unfold get at 1. unfold bind at 1.
  rewrite (profiles_loop_run (profile_list a) a fm Hmap).
  unfold bind, get, lift, modify, raise. cbn.
  destruct (centroid a); reflexivity.
Qed.

Lemma point_errors_app (t1 t2 : trace num) :
  point_errors (t1 ++ t2) = point_errors t1 ++ point_errors t2.
Proof. apply flat_map_app. Qed.

(** The retry executor reports no point failure of its own. *)
Lemma point_errors_retry_loop {A} (func : thunk A) wait n :
  forall attempt,
    point_errors (events_of (retry_loop (num:=num) func wait attempt n tt))
    = [].
Proof.
  induction n as [| n IH]; intros attempt; [reflexivity |].
  cbn [retry_loop]. unfold try_except, bind, emit, lift.
  destruct (func attempt) as [r | e]; [reflexivity |].
  cbn. destruct (is_ApiError e); [| reflexivity].
  specialize (IH (Datatypes.S attempt)).
  destruct (retry_loop func wait (Datatypes.S attempt) n tt) as [[r u] t].
  exact IH.
Qed.

Lemma point_errors_point_trace profile item :
  point_errors (point_trace client converted_range profile item)
  = point_failure client converted_range profile item.
Proof.
  unfold point_trace, point_failure. rewrite point_errors_app.
  unfold dispatch at 1, retry_request. rewrite point_errors_retry_loop.
  destruct (result_of (dispatch client converted_range profile item));
    reflexivity.
Qed.

Lemma point_errors_profile_trace points profile :
  point_errors (profile_trace client converted_range points profile)
  = profile_failures client converted_range points profile.
Proof.
  unfold profile_trace, profile_failures.
  change (point_errors (StWriteProfile profile :: ?t)) with (point_errors t).
  induction (enumerate points) as [| item rest IH]; [reflexivity |].
  cbn [flat_map]. rewrite point_errors_app, point_errors_point_trace, IH.
  reflexivity.
Qed.

Lemma point_errors_profiles points (profiles : list string) :
  point_errors
    (flat_map (profile_trace client converted_range points) profiles)
  = flat_map (profile_failures client converted_range points) profiles.
Proof.
  induction profiles as [| profile rest IH]; [reflexivity |].
  cbn [flat_map]. rewrite point_errors_app, point_errors_profile_trace, IH.
  reflexivity.
Qed.

(** C1. Partial-failure isolation.
    (1) When the request of a sample point fails with [e], be it the
    [RuntimeError] of retry exhaustion or any other exception, the
    iteration of that point ends normally, leaves the frame (the running
    total, the map and the summary entries written so far) as it found
    it, and reports the failure once, for the index of that point.
    (2) The loop over the points goes on after it and ends normally, and
    what it leaves is what the loop over the other points alone leaves.
    (3) Over a whole run, the layers on the map are those of the features
    of the requests that succeeded, profile by profile and point by
    point, and the failures reported are those of the requests that
    failed: no other point, no other profile is affected. *)
Theorem partial_failure_isolation :
  (forall profile clr item fr e,
      result_of (dispatch client converted_range profile item) = Raise e ->
      process_point client converted_range profile clr item fr
      = (Return tt, fr,
         events_of (dispatch client converted_range profile item)
           ++ [StErrorPoint (fst item) e]))
  /\
  (forall profile clr before item after fr e,
      result_of (dispatch client converted_range profile item) = Raise e ->
      result_of
        (for_each (before ++ item :: after)
           (process_point client converted_range profile clr) fr)
      = Return tt /\
      state_of
        (for_each (before ++ item :: after)
           (process_point client converted_range profile clr) fr)
      = state_of
          (for_each (before ++ after)
             (process_point client converted_range profile clr) fr))
  /\
  (forall a fm c,
      self_map a = Some fm ->
      centroid a = Some c ->
      result_of (generate_isochrones client converted_range a) = Return tt /\
      self_map (state_of (generate_isochrones client converted_range a))
      = Some (add_layers
                (flat_map
                   (fun profile =>
                      List.map (feature_layer profile)
                        (flat_map
                           (point_features client converted_range profile)
                           (enumerate (koordinat_list a))))
                   (profile_list a)
                 ++ [Marker (snd c, fst c) "Titik Pusat"; LayerControl]) fm)
      /\
      point_errors (events_of (generate_isochrones client converted_range a))
      = flat_map
          (fun profile =>
             flat_map (point_failure client converted_range profile)
               (enumerate (koordinat_list a)))
          (profile_list a)).
Proof.
  split; [| split].
  - intros profile clr item fr e Hfail.
    now apply process_point_failed.
  - intros profile clr before item after fr e Hfail.
    split; [apply points_loop_returns |].
    rewrite !for_each_app.
    pose proof (points_loop_returns profile clr before fr) as Hbefore.
    destruct (for_each before _ fr) as [[r fr1] t1].
    cbn in Hbefore. subst r.
    cbn [for_each]. unfold bind.
    rewrite (process_point_failed profile clr item fr1 e Hfail).
    destruct (for_each after _ fr1) as [[r fr2] t2]. reflexivity.
  - intros a fm c Hmap Hc.
    rewrite (generate_isochrones_run a fm c Hmap Hc).
    unfold result_of, state_of, events_of. cbn [fst snd].
    split; [reflexivity | split].
    + reflexivity.
    + apply point_errors_profiles.
Qed.

(** C2. Area summary.  When the map exists, [generate_isochrones] appends
    to [area_summary] one entry per profile of [profile_list], in that
    order; the entry of a profile pairs it with [round(total / 1e6, 2)],
    where [total] is the running sum, from 0, of the areas of all the
    features returned for the profile (a feature without an area counting
    for 0, every feature counted as many times as it is returned). *)
Theorem area_summary_is_plain_sum a fm :
  self_map a = Some fm ->
  area_summary (state_of (generate_isochrones client converted_range a))
  = area_summary a
      ++ List.map
           (fun profile =>
              (profile,
               round_ndigits
                 (truediv
                    (fold_left (fun total ft => add total (area_or_zero ft))
                       (returned_features client converted_range profile
                          (koordinat_list a))
                       int0)
                    lit_1e6) 2%Z))
           (profile_list a).
Proof.
  intros Hmap. now apply generate_isochrones_summary with (fm := fm).
Qed.

(** C6 as the code has it.  The pause of 2.5 between two requests is the
    last statement of the [try] block: when the request of a sample point
    succeeds and the map exists, the events of the point are those of the
    request followed by the pause; when the request fails, they are those
    of the request followed by the report of the failure, and the
    dispatcher moves on without the pause. *)
Theorem pause_follows_success_only profile item fr :
  (forall isochrones fm,
      result_of (dispatch client converted_range profile item)
      = Return isochrones ->
      self_map (self fr) = Some fm ->
      events_of (body profile item fr)
      = events_of (dispatch client converted_range profile item)
          ++ [Sleep inter_request_delay])
  /\
  (forall e,
      result_of (dispatch client converted_range profile item) = Raise e ->
      events_of (body profile item fr)
      = events_of (dispatch client converted_range profile item)
          ++ [StErrorPoint (fst item) e]).
Proof.
  split.
  - intros isochrones fm Hok Hmap.
    now rewrite (process_point_returned _ _ _ fm _ Hok Hmap).
  - intros e Hfail. now rewrite (process_point_failed _ _ _ _ _ Hfail).
Qed.

Lemma display_summary_run a :
  display_summary a
  = (Return tt, a,
     StSubheader
       :: List.map (fun entry => StMarkdown (fst entry) (snd entry))
            (area_summary a)).
Proof.
  unfold display_summary, bind, emit, get. cbn.
  assert (Hloop : forall entries : list (string * num),
             for_each entries
               (fun entry => emit (StMarkdown (fst entry) (snd entry))) a
             = (Return tt, a,
                List.map (fun entry => StMarkdown (fst entry) (snd entry))
                  entries)).
  { induction entries as [| entry rest IH]; [reflexivity |].
    cbn [for_each]. unfold bind. unfold emit at 1. rewrite IH.
    reflexivity. }
  rewrite Hloop. reflexivity.
Qed.

Lemma returned_features_all_failed profile (items : list (nat * point num)) :
  (forall item,
      In item items ->
      exists e,
        result_of (dispatch client converted_range profile item) = Raise e) ->
  flat_map (point_features client converted_range profile) items = [].
Proof.
  induction items as [| item rest IH]; intros Hall; [reflexivity |].
  cbn [flat_map]. rewrite IH by (intros; apply Hall; now right).
  destruct (Hall item (or_introl eq_refl)) as [e He].
  unfold point_features. rewrite He. reflexivity.
Qed.

(** Starting from an empty summary, [generate_isochrones] leaves one
    entry per profile, in order, and the entry of a profile all of whose
    requests failed is [(profile, 0)]. *)
Lemma generate_isochrones_every_profile a fm :
  self_map a = Some fm ->
  area_summary a = [] ->
  let a' := state_of (generate_isochrones client converted_range a) in
  List.map fst (area_summary a') = profile_list a /\
  (forall k profile,
      nth_error (profile_list a) k = Some profile ->
      (forall item,
          In item (enumerate (koordinat_list a)) ->
          exists e,
            result_of (dispatch client converted_range profile item)
            = Raise e) ->
      nth_error (area_summary a') k = Some (profile, int0)) /\
  events_of (display_summary a')
  = StSubheader
      :: List.map (fun entry => StMarkdown (fst entry) (snd entry))
           (area_summary a').
Proof.
  intros Hmap Hfresh a'. subst a'.
  rewrite (generate_isochrones_summary a fm Hmap), Hfresh. cbn [app].
  split; [| split].
  - rewrite map_map. cbn. apply map_id.
  - intros k profile Hk Hall.
    rewrite nth_error_map, Hk. cbn. unfold summary_entry.
    unfold returned_features.
    rewrite (returned_features_all_failed profile _ Hall).
    cbn. unfold km2_of. now rewrite round_div_zero.
  - rewrite display_summary_run. unfold events_of. cbn [snd].
    now rewrite (generate_isochrones_summary a fm Hmap), Hfresh.
Qed.

Lemma markdown_lines_app (t1 t2 : trace num) :
  markdown_lines (t1 ++ t2) = markdown_lines t1 ++ markdown_lines t2.
Proof. apply flat_map_app. Qed.

(** The retry executor writes no line of the summary. *)
Lemma markdown_lines_retry_loop {A} (func : thunk A) wait n :
  forall attempt,
    markdown_lines (events_of (retry_loop (num:=num) func wait attempt n tt))
    = [].
Proof.
  induction n as [| n IH]; intros attempt; [reflexivity |].
  cbn [retry_loop]. unfold try_except, bind, emit, lift.
  destruct (func attempt) as [r | e]; [reflexivity |].
  cbn. destruct (is_ApiError e); [| reflexivity].
  specialize (IH (Datatypes.S attempt)).
  destruct (retry_loop func wait (Datatypes.S attempt) n tt) as [[r u] t].
  exact IH.
Qed.

(** Nor does the dispatcher. *)
Lemma markdown_lines_profiles points (profiles : list string) :
  markdown_lines
    (flat_map (profile_trace client converted_range points) profiles)
  = [].
Proof.
  induction profiles as [| profile rest IH]; [reflexivity |].
  cbn [flat_map]. rewrite markdown_lines_app, IH, app_nil_r.
  unfold profile_trace.
  change (markdown_lines (StWriteProfile profile :: ?t))
    with (markdown_lines t).
  induction (enumerate points) as [| item more IHp]; [reflexivity |].
  cbn [flat_map]. rewrite markdown_lines_app, IHp, app_nil_r.
  unfold point_trace. rewrite markdown_lines_app.
  unfold dispatch at 1, retry_request. rewrite markdown_lines_retry_loop.
  destruct (result_of (dispatch client converted_range profile item));
    reflexivity.
Qed.

Lemma markdown_lines_summary (entries : list (string * num)) :
  markdown_lines
    (List.map (fun entry => StMarkdown (fst entry) (snd entry)) entries)
  = entries.
Proof.
  induction entries as [| [profile km2] rest IH]; [reflexivity |].
  cbn [List.map]. change (markdown_lines (StMarkdown ?p ?k :: ?t))
    with ((p, k) :: markdown_lines t).
  cbn [fst snd]. now rewrite IH.
Qed.

End DispatchProperties.

(** ** The script *)

Section DriverProperties.

Context {num : Type} `{PyNumber num}.

Implicit Types (client : service num) (w : widgets num).

Lemma on_object_state {S O A} (o : O) (body : M num O A) (s : S) :
  state_of (on_object o body s) = s.
Proof. unfold on_object. destruct (body o) as [[r o'] t]. reflexivity. Qed.

(** The single-point branch handles every exception of its [try] block
    and binds no name of the script. *)
Lemma single_point_handled client text converted_range profiles st :
  result_of (single_point client text converted_range profiles st)
  = Return tt /\
  state_of (single_point client text converted_range profiles st) = st.
Proof.
  unfold single_point, try_except.
  match goal with
  | |- context [bind ?first ?next st] =>
      assert (Hst : state_of (bind first next st) = st);
      [| destruct (bind first next st) as [[[[] | e] st1] t];
         cbn in Hst; subst st1; split; reflexivity]
  end.
  unfold bind, lift.
  destruct (unpack_lon_lat (split_comma text)) as [lonlat | e];
    [| reflexivity].
  match goal with
  | |- context [on_object ?o ?body st] =>
      pose proof (on_object_state o body st) as Hobj;
      destruct (on_object o body st) as [[r st1] t]
  end.
  exact Hobj.
Qed.

Lemma build_map_run (a : IsochroneAnalyzer num) c g :
  centroid a = Some c ->
  gdf_kml a = Some g ->
  build_map a
  = (Return tt,
     set_self_map
       (Some {| map_location := (snd c, fst c);
                layers := [KmlLayer g];
                fitted := true |}) a,
     []).
Proof.
  intros Hc Hg. unfold build_map, bind, get, modify. cbn.
  rewrite Hc, Hg. reflexivity.
Qed.

Lemma show_map_run (a : IsochroneAnalyzer num) :
  show_map a = (Return tt, a, [StFolium (self_map a)]).
Proof. reflexivity. Qed.

(** A whole analysis on a file that parses to a non-empty GeoDataFrame,
    with a positive sampling interval: the sample points are announced,
    every profile is dispatched, the summary is written and the map is
    shown. *)
Lemma analysis_run client converted_range read_file
    (a : IsochroneAnalyzer num) path g :
  file_kml a = Some path ->
  read_file path = Return g ->
  gdf_empty g = false ->
  (0 < sampling_interval a)%Z ->
  let points := sample_points g (sampling_interval a) in
  let summary :=
    area_summary a
      ++ List.map (summary_entry client converted_range points)
           (profile_list a) in
  let shown :=
    add_layers
      (flat_map (profile_layers client converted_range points)
         (profile_list a)
       ++ [Marker (snd (union_centroid g), fst (union_centroid g))
             "Titik Pusat"; LayerControl])
      (built_map g) in
  result_of (analysis client converted_range read_file a) = Return tt /\
  events_of (analysis client converted_range read_file a)
  = StInfoPoints (List.length points)
      :: flat_map (profile_trace client converted_range points)
           (profile_list a)
      ++ StSubheader
      :: List.map (fun entry => StMarkdown (fst entry) (snd entry)) summary
      ++ [StFolium (Some shown)].
Proof.
  intros Hpath Hread Hempty HN points summary shown.
  assert (Hall : exists final,
             analysis client converted_range read_file a
             = (Return tt, final,
                StInfoPoints (List.length points)
                  :: flat_map (profile_trace client converted_range points)
                       (profile_list a)
                  ++ StSubheader
                  :: List.map
                       (fun entry => StMarkdown (fst entry) (snd entry))
                       summary
                  ++ [StFolium (Some shown)])).
  { unfold analysis. unfold bind at 1.
    rewrite (load_kml_run read_file a path g Hpath Hread), Hempty.
    unfold slice_step.
    destruct (Z.eqb_spec (sampling_interval a) 0) as [| _]; [lia |].
    destruct (Z.ltb_spec 0 (sampling_interval a)) as [_ |]; [| lia].
    rewrite boundary_points_encounter_order.
    fold (sample_points g (sampling_interval a)). fold points.
    set (a1 := set_koordinat_list points
                 (set_centroid (union_centroid g) (set_gdf_kml g a))).
    unfold bind at 1.
    rewrite (build_map_run a1 (union_centroid g) g eq_refl eq_refl).
    fold (built_map g).
    set (a2 := set_self_map (Some (built_map g)) a1).
    unfold bind at 1.
    rewrite (generate_isochrones_run client converted_range a2 (built_map g)
               (union_centroid g) eq_refl eq_refl).
    unfold bind at 1. rewrite display_summary_run.
    rewrite show_map_run.
    cbn [a2 a1 koordinat_list profile_list area_summary self_map
         set_self_map set_koordinat_list set_centroid set_gdf_kml
         set_area_summary app].
    fold shown. fold summary.
    eexists. reflexivity. }
  destruct Hall as [final Hall]. rewrite Hall. split; reflexivity.
Qed.

(** A run of the script on an uploaded file that parses to a non-empty
    GeoDataFrame. *)
Lemma region_run client w u g :
  run_analysis w = true ->
  ui_input w = FileKML (Some u) ->
  parsed u = Return g ->
  gdf_empty g = false ->
  (0 < ui_sampling w)%Z ->
  let points := sample_points g (ui_sampling w) in
  let summary :=
    List.map (summary_entry client (converted_range_of w) points)
      (ui_profile_list w) in
  result_of (run client w) = Return tt /\
  exists shown,
    events_of (run client w)
    = [OpenFile "temp_uploaded.kml"; FileWrite "temp_uploaded.kml";
       StInfoPoints (List.length points)]
        ++ flat_map (profile_trace client (converted_range_of w) points)
             (ui_profile_list w)
        ++ StSubheader
        :: List.map (fun entry => StMarkdown (fst entry) (snd entry)) summary
        ++ [StFolium (Some shown)].
Proof.
  intros Hrun Hinput Hparsed Hempty HN points summary.
  unfold run, driver. rewrite Hrun, Hinput.
  unfold bind, modify, emit, get, on_object.
  cbn [fst snd app path_kml write_upload assign_path_kml].
  match goal with
  | |- context [analysis ?c ?cr ?rf ?a] =>
      destruct (analysis_run c cr rf a "temp_uploaded.kml" g
                  eq_refl Hparsed Hempty HN) as [Hres Hev];
      destruct (analysis c cr rf a) as [[r a'] t]
  end.
  unfold result_of, events_of in *. cbn [fst snd] in *.
  subst r t. split; [reflexivity |].
  eexists. reflexivity.
Qed.

(** C8. Empty region.  When the uploaded file parses to an empty
    GeoDataFrame, the run ends normally after [load_kml] has reported the
    failure with [st.error]; [load_kml] has returned [False], so
    [generate_isochrones] is not entered and the remote service is never
    invoked. *)
Theorem empty_region_dispatches_nothing client w u g :
  run_analysis w = true ->
  ui_input w = FileKML (Some u) ->
  parsed u = Return g ->
  gdf_empty g = true ->
  result_of (run client w) = Return tt /\
  events_of (run client w)
  = [OpenFile "temp_uploaded.kml"; FileWrite "temp_uploaded.kml";
     StErrorKml] /\
  calls (events_of (run client w)) = 0.
Proof.
  intros Hrun Hinput Hparsed Hempty.
  assert (Hall : run client w
                 = (Return tt,
                    write_upload u
                      (assign_path_kml "temp_uploaded.kml" initial_state),
                    [OpenFile "temp_uploaded.kml";
                     FileWrite "temp_uploaded.kml"; StErrorKml])).
  { unfold run, driver. rewrite Hrun, Hinput.
    unfold bind, modify, emit, get, on_object, analysis. cbn.
    unfold bind.
    erewrite load_kml_run; [| reflexivity | cbn; exact Hparsed].
    rewrite Hempty. reflexivity. }
  rewrite Hall. repeat split.
Qed.

(** C9, on the code.  A run of the single-point branch never ends
    normally: once the branch is over, the script goes on to line 237,
    which reads [path_kml], a name that only the file branch binds, and
    the [NameError] leaves the script.  When the coordinate text does not
    parse as two numbers, the [ValueError] is turned into a message with
    [st.error] and that message is the only event of the run, so the
    remote service is not invoked; the [NameError] follows all the
    same. *)
Theorem single_point_run_raises_NameError client w text :
  run_analysis w = true ->
  ui_input w = TitikKoordinat text ->
  result_of (run client w) = Raise (NameError "path_kml") /\
  (forall e,
      unpack_lon_lat (split_comma text) = Raise e ->
      events_of (run client w) = [StErrorCoordinate e]).
Proof.
  intros Hrun Hinput. unfold run, driver. rewrite Hrun, Hinput.
  split.
  - unfold bind at 1.
    destruct (single_point_handled client text (converted_range_of w)
                (ui_profile_list w) initial_state) as [Hres Hst].
    destruct (single_point _ _ _ _ initial_state) as [[r st] t].
    cbn in Hres, Hst. subst r st. reflexivity.
  - intros e He. unfold bind at 1.
    unfold single_point, try_except. unfold bind at 1. unfold lift at 1.
    rewrite He. reflexivity.
Qed.

(** The summary written by a run on a region: one line per selected
    profile, in order, with the rounded total of the profile. *)
Lemma region_summary_lines client w u g :
  run_analysis w = true ->
  ui_input w = FileKML (Some u) ->
  parsed u = Return g ->
  gdf_empty g = false ->
  (0 < ui_sampling w)%Z ->
  markdown_lines (events_of (run client w))
  = List.map
      (summary_entry client (converted_range_of w)
         (sample_points g (ui_sampling w)))
      (ui_profile_list w).
Proof.
  intros Hrun Hinput Hparsed Hempty HN.
  destruct (region_run client w u g Hrun Hinput Hparsed Hempty HN)
    as [_ [shown Hev]].
  rewrite Hev.
  rewrite !markdown_lines_app, markdown_lines_profiles.
  change (markdown_lines (StSubheader :: ?t)) with (markdown_lines t).
  rewrite markdown_lines_app, markdown_lines_summary.
  cbn [markdown_lines flat_map app]. now rewrite app_nil_r.
Qed.

(** C10. One summary entry per profile, failed profiles included.  In a
    run on an uploaded file that parses to a non-empty GeoDataFrame, with
    a positive sampling interval, the script ends normally and the
    summary it writes has one line per selected profile, in the order of
    the selection; the line of a profile all of whose requests failed
    shows 0. *)
Theorem summary_has_every_profile client w u g :
  run_analysis w = true ->
  ui_input w = FileKML (Some u) ->
  parsed u = Return g ->
  gdf_empty g = false ->
  (0 < ui_sampling w)%Z ->
  let lines := markdown_lines (events_of (run client w)) in
  result_of (run client w) = Return tt /\
  List.map fst lines = ui_profile_list w /\
  forall k profile,
    nth_error (ui_profile_list w) k = Some profile ->
    (forall item,
        In item (enumerate (sample_points g (ui_sampling w))) ->
        exists e,
          result_of (dispatch client (converted_range_of w) profile item)
          = Raise e) ->
    nth_error lines k = Some (profile, int0).
Proof.
  intros Hrun Hinput Hparsed Hempty HN lines. subst lines.
  rewrite (region_summary_lines client w u g Hrun Hinput Hparsed Hempty HN).
  split; [| split].
  - apply (region_run client w u g Hrun Hinput Hparsed Hempty HN).
  - rewrite map_map. cbn. apply map_id.
  - intros k profile Hk Hall.
    rewrite nth_error_map, Hk. cbn. unfold summary_entry.
    unfold returned_features.
    rewrite (returned_features_all_failed client (converted_range_of w)
               profile _ Hall).
    cbn. unfold km2_of. now rewrite round_div_zero.
Qed.

End DriverProperties.

(** ** Concrete runs *)

Lemma retry_request_contract_witness :
  (result_of (retry_request (num:=Q) flaky 3 5%Q tt) = Return 7 /\
   state_of (retry_request (num:=Q) flaky 3 5%Q tt) = tt /\
   sleeps (events_of (retry_request (num:=Q) flaky 3 5%Q tt))
   = repeat 5%Q 2 /\
   calls (events_of (retry_request (num:=Q) flaky 3 5%Q tt)) = 2 + 1)
  /\
  (result_of (retry_request (num:=Q) always_limited 3 5%Q tt)
   = Raise (RuntimeError exhausted_message) /\
   state_of (retry_request (num:=Q) always_limited 3 5%Q tt) = tt /\
   Z.of_nat (calls (events_of (retry_request (num:=Q) always_limited 3 5%Q tt)))
   = Z.max 0 3).
Proof.
  split.
  - apply (proj1 (retry_request_contract (num:=Q) flaky 3 5%Q tt) 2 7).
    + reflexivity.
    + intros [| [| i]] Hi; [reflexivity | reflexivity | exfalso; lia].
    + reflexivity.
  - apply (proj2 (retry_request_contract (num:=Q) always_limited 3 5%Q tt)).
    intros i _. reflexivity.
Defined.

Lemma only_rate_limit_is_retried_witness :
  retry_request (num:=Q) limited_then_timeout 3 5%Q tt
  = (Raise (OtherException "timeout"), tt,
     retry_rounds 5%Q 0 1 ++ [Call 1])
  /\
  exists rest,
    events_of (retry_request (num:=Q) always_limited 3 5%Q tt)
    = retry_rounds 5%Q 0 1
        ++ [Call 1; StWarningRetry (1 + 1) 5%Q; Sleep 5%Q] ++ rest.
Proof.
  split.
  - refine (proj1 (only_rate_limit_is_retried (num:=Q) limited_then_timeout
                     3 5%Q tt 1 (OtherException "timeout") _ _ _) _).
    + reflexivity.
    + intros [| i] Hi; [reflexivity | exfalso; lia].
    + reflexivity.
    + reflexivity.
  - refine (proj2 (only_rate_limit_is_retried (num:=Q) always_limited
                     3 5%Q tt 1 (ApiError "429") _ _ _) _).
    + reflexivity.
    + intros i _. reflexivity.
    + reflexivity.
    + reflexivity.
Defined.

Lemma load_kml_sample_points_witness :
  (0 < 5)%Z /\
  Z.of_nat
    (List.length
       (koordinat_list
          (state_of
             (load_kml (fun _ => Return demo_gdf)
                (init "key" (Some "temp_uploaded.kml"%string) [300%Z]
                   ["driving-car"%string] 5)))))
  = 3%Z.
Proof.
  split; [reflexivity |].
  exact (proj1 (load_kml_sample_points (fun _ => Return demo_gdf)
                  "key" "temp_uploaded.kml" [300%Z] ["driving-car"%string]
                  5 demo_gdf eq_refl eq_refl)).
Defined.

Lemma partial_failure_isolation_witness :
  state_of
    (process_point demo_client [300%Z] "driving-car" "#1a9641"
       (1, (inject_Z 5, inject_Z 0)) demo_frame)
  = demo_frame
  /\
  state_of
    (for_each (enumerate (koordinat_list demo_ready))
       (process_point demo_client [300%Z] "driving-car" "#1a9641")
       demo_frame)
  = state_of
      (for_each [(0, (inject_Z 0, inject_Z 0)); (2, (inject_Z 10, inject_Z 0))]
         (process_point demo_client [300%Z] "driving-car" "#1a9641")
         demo_frame)
  /\
  point_errors (events_of (generate_isochrones demo_client [300%Z] demo_ready))
  = [ (1, RuntimeError exhausted_message);
      (2, OtherException "timeout");
      (0, OtherException "profile not available");
      (1, OtherException "profile not available");
      (2, OtherException "profile not available") ].
Proof.
  destruct (partial_failure_isolation demo_client [300%Z]) as [P1 [P2 P3]].
  split; [| split].
  - rewrite (P1 "driving-car"%string "#1a9641"%string
               (1, (inject_Z 5, inject_Z 0)) demo_frame
               (RuntimeError exhausted_message) eq_refl).
    reflexivity.
  - exact (proj2 (P2 "driving-car"%string "#1a9641"%string
                    [(0, (inject_Z 0, inject_Z 0))]
                    (1, (inject_Z 5, inject_Z 0))
                    [(2, (inject_Z 10, inject_Z 0))]
                    demo_frame (RuntimeError exhausted_message) eq_refl)).
  - rewrite (proj2 (proj2 (P3 demo_ready demo_map (inject_Z 5, inject_Z 0)
                             eq_refl eq_refl))).
    reflexivity.
Defined.

Lemma area_summary_is_plain_sum_witness :
  area_summary (state_of (generate_isochrones demo_client [300%Z] demo_ready))
  = [("driving-car"%string, 1%Q); ("foot-walking"%string, 0%Q)].
Proof.
  rewrite (area_summary_is_plain_sum demo_client [300%Z] demo_ready demo_map
             eq_refl).
  reflexivity.
Defined.

Lemma pause_follows_success_only_witness :
  events_of
    (process_point demo_client [300%Z] "driving-car" "#1a9641"
       (0, (inject_Z 0, inject_Z 0)) demo_frame)
  = [Call 0; Sleep inter_request_delay]
  /\
  events_of
    (process_point demo_client [300%Z] "driving-car" "#1a9641"
       (2, (inject_Z 10, inject_Z 0)) demo_frame)
  = [Call 0; StErrorPoint 2 (OtherException "timeout")].
Proof.
  split.
  - exact (proj1 (pause_follows_success_only demo_client [300%Z]
                    "driving-car" (0, (inject_Z 0, inject_Z 0)) demo_frame)
             two_features demo_map eq_refl eq_refl).
  - exact (proj2 (pause_follows_success_only demo_client [300%Z]
                    "driving-car" (2, (inject_Z 10, inject_Z 0)) demo_frame)
             (OtherException "timeout") eq_refl).
Defined.

(** C6, as the claim states it, fails: the request of this sample point
    times out, the failure is handled, and the events of the point do not
    end with the pause (there is no pause at all). *)
Lemma no_pause_after_failed_point :
  ~ ends_with_pause
      (events_of
         (process_point timeout_client [300%Z] "driving-car" "#1a9641"
            (0, (inject_Z 0, inject_Z 0)) demo_frame)).
Proof.
  intros [before Heq].
  change (events_of _)
    with [Call (num:=Q) 0; StErrorPoint 0 (OtherException "timeout")] in Heq.
  apply (f_equal (fun t => last t (Call 0))) in Heq.
  rewrite last_last in Heq. discriminate Heq.
Qed.

Lemma summary_has_every_profile_witness :
  List.map fst (markdown_lines (events_of (run demo_client demo_widgets)))
  = ["driving-car"%string; "foot-walking"%string]
  /\
  nth_error (markdown_lines (events_of (run demo_client demo_widgets))) 1
  = Some ("foot-walking"%string, 0%Q).
Proof.
  destruct (summary_has_every_profile demo_client demo_widgets
              {| parsed := Return demo_gdf |} demo_gdf
              eq_refl eq_refl eq_refl eq_refl eq_refl)
    as [_ [Hnames Hzero]].
  split; [exact Hnames |].
  apply (Hzero 1 "foot-walking"%string eq_refl).
  intros item _. exists (OtherException "profile not available").
  reflexivity.
Defined.

Lemma empty_region_dispatches_nothing_witness :
  result_of (run demo_client empty_upload_widgets) = Return tt /\
  events_of (run demo_client empty_upload_widgets)
  = [OpenFile "temp_uploaded.kml"; FileWrite "temp_uploaded.kml";
     StErrorKml] /\
  calls (events_of (run demo_client empty_upload_widgets)) = 0.
Proof.
  exact (empty_region_dispatches_nothing demo_client empty_upload_widgets
           {| parsed := Return empty_gdf |} empty_gdf
           eq_refl eq_refl eq_refl eq_refl).
Defined.

Lemma single_point_run_raises_NameError_witness :
  result_of (run demo_client malformed_point_widgets)
  = Raise (NameError "path_kml") /\
  events_of (run demo_client malformed_point_widgets)
  = [StErrorCoordinate (ValueError "could not convert string to float: abc")].
Proof.
  destruct (single_point_run_raises_NameError demo_client
              malformed_point_widgets "abc" eq_refl eq_refl)
    as [Hraise Hevents].
  split; [exact Hraise |].
  apply Hevents. reflexivity.
Defined.

(** C7, on the code.  In a run whose thresholds are metres, the list sent
    to the service is the selection itself (1000), the feature comes back
    with the value 1000, and the layer is named after [1000 // 60 = 16]
    "menit": the value is divided by 60 whatever the kind of range. *)
Theorem distance_threshold_is_divided_by_60 :
  converted_range_of distance_widgets = [1000%Z] /\
  shown_layer_names (events_of (run echo_client distance_widgets))
  = ["16 menit - driving-car"%string].
Proof. split; reflexivity. Qed.

(** The well-formed single point of the specification: the summary shows
    2.5 square kilometres, and the run still ends in the [NameError]. *)
Example single_point_scenario :
  markdown_lines (events_of (run echo_client point_widgets))
  = [("driving-car"%string, (5 # 2)%Q)] /\
  result_of (run echo_client point_widgets) = Raise (NameError "path_kml").
Proof. split; reflexivity. Qed.

(** The single-point branch has one handler for the whole of its [try]
    block: when the request of a profile fails, the failure is reported
    and the profiles after it are not requested. *)
Example single_point_failure :
  events_of (run demo_client refused_point_widgets)
  = [StWriteProfile "foot-walking"; Call 0;
     StErrorCoordinate (OtherException "profile not available")].
Proof. reflexivity. Qed.

(** The scenario of 100 vertices sampled every 20: 5 sample points, one
    request per point and profile, 15 square kilometres per profile. *)
Example region_scenario :
  markdown_lines (events_of (run unit_area_client scenario_widgets))
  = [("driving-car"%string, inject_Z 15); ("foot-walking"%string, inject_Z 15)]
  /\
  calls (events_of (run unit_area_client scenario_widgets)) = 10.
Proof. split; vm_compute; reflexivity. Qed.

(** Outside the positive steps, the slice of Python refuses 0 and walks
    backwards on a negative step. *)
Example slice_step_zero :
  slice_step [1; 2; 3] 0 = Raise (ValueError "slice step cannot be zero").
Proof. reflexivity. Qed.

Example slice_step_negative : slice_step [1; 2; 3; 4; 5] (-2) = Return [5; 3; 1].
Proof. reflexivity. Qed.

(** * Further properties of the code *)

(** ** The retry executor, whatever the call does *)

Section RetryBehaviour.

Context {num : Type}.
Context {S A : Type}.

Implicit Types (func : thunk A) (wait : Q) (s : S).

Local Abbreviation retry_loop := (retry_loop (num:=num)).
Local Abbreviation retry_request := (retry_request (num:=num)).
Local Abbreviation retry_rounds := (retry_rounds (num:=num)).

(** Where the outcome of the loop comes from. *)
Lemma retry_loop_outcome func wait n :
  forall attempt s,
    match result_of (retry_loop func wait attempt n s) with
    | Return r =>
        exists K,
          K < n /\
          (forall i, i < K -> rate_limited (func (attempt + i)) = true) /\
          func (attempt + K) = Return r
    | Raise e =>
        is_ApiError e = false /\
        ((e = RuntimeError exhausted_message /\
          forall i, i < n -> rate_limited (func (attempt + i)) = true)
         \/
         exists K,
           K < n /\
           (forall i, i < K -> rate_limited (func (attempt + i)) = true) /\
           func (attempt + K) = Raise e)
    end.
Proof.
  induction n as [| n IH]; intros attempt s.
  - cbn. split; [reflexivity |]. left. split; [reflexivity |].
    intros i Hi. lia.
  - destruct (func attempt) as [r | e] eqn:Hcall.
    + rewrite (retry_loop_return func wait attempt n s r Hcall). cbn.
      exists 0. rewrite Nat.add_0_r. repeat split; [lia | | exact Hcall].
      intros i Hi. lia.
    + destruct (is_ApiError e) eqn:Hapi.
      * assert (Hlim : rate_limited (func attempt) = true)
          by (rewrite Hcall; exact Hapi).
        rewrite (retry_loop_again func wait attempt n s Hlim).
        specialize (IH (Datatypes.S attempt) s).
        destruct (retry_loop func wait (Datatypes.S attempt) n s)
          as [[res s'] t].
        unfold result_of in *. cbn [fst] in *.
        assert (Hshift : forall K,
                   (forall i, i < K ->
                      rate_limited (func (Datatypes.S attempt + i)) = true) ->
                   forall i, i < Datatypes.S K ->
                     rate_limited (func (attempt + i)) = true).
        { intros K HK [| i] Hi.
          - rewrite Nat.add_0_r. exact Hlim.
          - replace (attempt + Datatypes.S i)
              with (Datatypes.S attempt + i) by lia.
            apply HK. lia. }
        destruct res as [r | e'].
        -- destruct IH as [K [HK [Hbefore Hat]]].
           exists (Datatypes.S K). repeat split; [lia | now apply Hshift |].
           replace (attempt + Datatypes.S K)
             with (Datatypes.S attempt + K) by lia.
           exact Hat.
        -- destruct IH as [Hno [[He Hall] | [K [HK [Hbefore Hat]]]]];
             (split; [exact Hno |]).
           ++ left. split; [exact He | now apply Hshift].
           ++ right. exists (Datatypes.S K).
              repeat split; [lia | now apply Hshift |].
              replace (attempt + Datatypes.S K)
                with (Datatypes.S attempt + K) by lia.
              exact Hat.
      * rewrite (retry_loop_propagate func wait attempt n s e Hcall Hapi).
        cbn. split; [exact Hapi |]. right. exists 0.
        rewrite Nat.add_0_r. repeat split; [lia | | exact Hcall].
        intros i Hi. lia.
Qed.

(** X1. What [retry_request] returns is what the call returned at some
    attempt [K] below [max_retries], every attempt before [K] having
    signalled the rate-limit condition: a result is never made up, and
    never taken from an attempt beyond the budget. *)
Theorem retry_request_returns_a_call_result func (max_retries : Z) wait s
    (r : A) :
  result_of (retry_request func max_retries wait s) = Return r ->
  exists K,
    (Z.of_nat K < max_retries)%Z /\
    (forall i, i < K -> rate_limited (func i) = true) /\
    func K = Return r.
Proof.
  intros Hres. unfold retry_request in Hres.
  pose proof (retry_loop_outcome func wait (Z.to_nat max_retries) 0 s)
    as Hout.
  rewrite Hres in Hout. destruct Hout as [K [HK [Hbefore Hat]]].
  exists K. repeat split; [lia | exact Hbefore | exact Hat].
Qed.

(** X2. [retry_request] never lets an [ApiError] out: whatever the call
    does, an exception it raises is either the [RuntimeError] of
    exhaustion or an exception of the call that is no [ApiError]. *)
Theorem retry_request_never_raises_ApiError func (max_retries : Z) wait s
    (e : exn) :
  result_of (retry_request func max_retries wait s) = Raise e ->
  is_ApiError e = false /\
  (e = RuntimeError exhausted_message \/ exists K, func K = Raise e).
Proof.
  intros Hres. unfold retry_request in Hres.
  pose proof (retry_loop_outcome func wait (Z.to_nat max_retries) 0 s)
    as Hout.
  rewrite Hres in Hout. destruct Hout as [Hno [[He _] | [K [_ [_ Hat]]]]].
  - split; [exact Hno | now left].
  - split; [exact Hno |]. right. now exists K.
Qed.

Lemma retry_loop_budget func wait n :
  forall attempt s,
    calls (events_of (retry_loop func wait attempt n s)) <= n /\
    exists k,
      sleeps (events_of (retry_loop func wait attempt n s)) = repeat wait k /\
      k <= calls (events_of (retry_loop func wait attempt n s)).
Proof.
  induction n as [| n IH]; intros attempt s.
  - cbn. split; [lia |]. exists 0. split; [reflexivity | lia].
  - destruct (func attempt) as [r | e] eqn:Hcall.
    + rewrite (retry_loop_return func wait attempt n s r Hcall). cbn.
      split; [lia |]. exists 0. split; [reflexivity | lia].
    + destruct (is_ApiError e) eqn:Hapi.
      * assert (Hlim : rate_limited (func attempt) = true)
          by (rewrite Hcall; exact Hapi).
        rewrite (retry_loop_again func wait attempt n s Hlim).
        destruct (IH (Datatypes.S attempt) s) as [Hcalls [k [Hsl Hk]]].
        destruct (retry_loop func wait (Datatypes.S attempt) n s)
          as [[res s'] t].
        unfold events_of in *. cbn [snd] in *.
        rewrite calls_app, sleeps_app. cbn. rewrite Hsl.
        split; [lia |]. exists (Datatypes.S k). split; [reflexivity | lia].
      * rewrite (retry_loop_propagate func wait attempt n s e Hcall Hapi).
        cbn. split; [lia |]. exists 0. split; [reflexivity | lia].
Qed.

(** X3. The budget of [retry_request]: whatever the call does, it is
    invoked at most [max_retries] times (never when [max_retries] is not
    positive), every wait lasts [wait], and there are no more waits than
    invocations. *)
Theorem retry_request_budget func (max_retries : Z) wait s :
  (Z.of_nat (calls (events_of (retry_request func max_retries wait s)))
   <= Z.max 0 max_retries)%Z /\
  exists k,
    sleeps (events_of (retry_request func max_retries wait s))
    = repeat wait k /\
    k <= calls (events_of (retry_request func max_retries wait s)).
Proof.
  unfold retry_request.
  destruct (retry_loop_budget func wait (Z.to_nat max_retries) 0 s)
    as [Hcalls Hsleeps].
  split; [lia | exact Hsleeps].
Qed.

(** X4. The cost of exhaustion: when every attempt signals the rate-limit
    condition, [retry_request] waits after each of them, the last one
    included, so that [max_retries] waits precede the [RuntimeError]. *)
Theorem retry_request_waits_before_giving_up func (max_retries : Z) wait s :
  (forall i, (Z.of_nat i < max_retries)%Z ->
             rate_limited (func i) = true) ->
  retry_request func max_retries wait s
  = (Raise (RuntimeError exhausted_message), s,
     retry_rounds wait 0 (Z.to_nat max_retries)) /\
  sleeps (events_of (retry_request func max_retries wait s))
  = repeat wait (Z.to_nat max_retries).
Proof.
  intros Hall. unfold retry_request.
  replace (Z.to_nat max_retries) with (Z.to_nat max_retries + 0) at 1 3
    by lia.
  rewrite retry_loop_rounds by (intros i Hi; apply Hall; lia).
  rewrite retry_loop_exhausted, app_nil_r.
  replace (0 + Z.to_nat max_retries) with (Z.to_nat max_retries) by lia.
  split; [reflexivity |].
  unfold events_of. cbn [snd]. apply sleeps_retry_rounds.
Qed.

End RetryBehaviour.

(** ** The boundary extractor, outside the usual intervals *)

Section BoundaryBehaviour.

Context {num : Type} `{PyNumber num}.

Implicit Types (g : geodataframe num) (a : IsochroneAnalyzer num).

Lemma stride_one {X} (l : list X) : stride 1 0 l = l.
Proof. induction l as [| x rest IH]; [reflexivity |]. cbn. now rewrite IH. Qed.

Lemma stride_short {X} (step : nat) (l : list X) :
  forall skip, List.length l <= skip -> stride step skip l = [].
Proof.
  induction l as [| x rest IH]; intros skip Hlen; [reflexivity |].
  destruct skip as [| k]; cbn in *; [lia |]. apply IH. lia.
Qed.

Lemma empty_has_no_vertex g : gdf_empty g = true -> encounter_order g = [].
Proof.
  unfold gdf_empty, encounter_order.
  destruct (gdf_geometry g); [reflexivity | discriminate].
Qed.

(** The sample points left by [load_kml] in a newly created analyzer, by
    the slice alone. *)
Lemma sampled_by_slice read_file path N g :
  read_file path = Return g ->
  sampled_by read_file path N
  = match slice_step
            (List.map (fun pt => (vx pt, vy pt)) (encounter_order g)) N
    with
    | Return sampled => sampled
    | Raise _ => []
    end.
Proof.
  intros Hread. unfold sampled_by.
  rewrite (load_kml_run read_file (init "" (Some path) [] [] N) path g
             eq_refl Hread).
  rewrite boundary_points_encounter_order.
  destruct (gdf_empty g) eqn:Hempty.
  - rewrite (empty_has_no_vertex g Hempty). cbn.
    unfold slice_step. cbn.
    destruct (N =? 0)%Z; [reflexivity |].
    destruct (0 <? N)%Z; reflexivity.
  - cbn [init sampling_interval].
    destruct (slice_step _ N); reflexivity.
Qed.

(** X5. A sampling interval of zero.  On a file that parses to a
    non-empty GeoDataFrame, [load_kml] raises the [ValueError] of the
    slice, after it has stored the GeoDataFrame and the centroid: no
    sample point is stored and nothing is announced. *)
Theorem load_kml_zero_interval read_file a path g :
  file_kml a = Some path ->
  read_file path = Return g ->
  gdf_empty g = false ->
  sampling_interval a = 0%Z ->
  load_kml read_file a
  = (Raise (ValueError "slice step cannot be zero"),
     set_centroid (union_centroid g) (set_gdf_kml g a), []).
Proof.
  intros Hpath Hread Hempty Hzero.
  rewrite (load_kml_run read_file a path g Hpath Hread), Hempty, Hzero.
  reflexivity.
Qed.

(** X6. A negative sampling interval.  The slice then walks from the last
    vertex backwards: for an interval [N < 0] and [V] vertices, a newly
    created analyzer gets [ceil(V / |N|)] sample points, and the sample
    point number [i] is the vertex number [V - 1 - i * |N|] in encounter
    order. *)
Theorem load_kml_negative_interval
    (read_file : string -> outcome (geodataframe num)) (path : string)
    (N : Z) g :
  read_file path = Return g ->
  (N < 0)%Z ->
  Z.of_nat (List.length (sampled_by read_file path N))
  = ceil_div (total_vertices g) (- N) /\
  forall i,
    i < List.length (sampled_by read_file path N) ->
    nth_error (sampled_by read_file path N) i
    = option_map (fun pt => (vx pt, vy pt))
        (nth_error (encounter_order g)
           (total_vertices g - 1 - i * Z.to_nat (- N))).
Proof.
  intros Hread HN.
  rewrite (sampled_by_slice read_file path N g Hread).
  unfold slice_step.
  destruct (Z.eqb_spec N 0) as [| _]; [lia |].
  destruct (Z.ltb_spec 0 N) as [| _]; [lia |].
  cbv beta iota.
  rewrite ceil_div_nat by lia.
  rewrite total_vertices_length.
  set (step := Z.to_nat (- N)).
  assert (Hstep : 1 <= step) by (subst step; lia).
  rewrite stride_length by exact Hstep.
  rewrite length_rev, length_map.
  split.
  - f_equal. f_equal. lia.
  - intros i Hi.
    rewrite stride_nth_error by exact Hstep. cbn [Nat.add].
    rewrite nth_error_rev, length_map.
    assert (Hin : i * step < List.length (encounter_order g)).
    { set (V := List.length (encounter_order g)) in *.
      assert (Hq : (V + step - 1 - 0) / step * step <= V + step - 1 - 0).
      { rewrite Nat.mul_comm. apply Nat.Div0.mul_div_le. }
      nia. }
    destruct (Nat.ltb_spec (i * step) (List.length (encounter_order g)));
      [| lia].
    rewrite nth_error_map. f_equal. f_equal. lia.
Qed.

(** X7. The two ends of the sampling.  With an interval of 1 every vertex
    is a sample point; with an interval that is at least the number of
    vertices, the first vertex is the only sample point. *)
Theorem load_kml_extreme_intervals
    (read_file : string -> outcome (geodataframe num)) (path : string) g :
  read_file path = Return g ->
  sampled_by read_file path 1
  = List.map (fun pt => (vx pt, vy pt)) (encounter_order g)
  /\
  forall (N : Z) first rest,
    encounter_order g = first :: rest ->
    (Z.of_nat (total_vertices g) <= N)%Z ->
    sampled_by read_file path N = [(vx first, vy first)].
Proof.
  intros Hread. split.
  - rewrite (sampled_by_slice read_file path 1 g Hread).
    cbn. apply stride_one.
  - intros N first rest Horder HN.
    rewrite (sampled_by_slice read_file path N g Hread).
    rewrite total_vertices_length, Horder in HN. cbn [List.length] in HN.
    unfold slice_step.
    destruct (Z.eqb_spec N 0) as [| _]; [lia |].
    destruct (Z.ltb_spec 0 N) as [_ |]; [| lia].
    cbv beta iota.
    rewrite Horder. cbn [List.map stride]. f_equal.
    apply stride_short. rewrite length_map. lia.
Qed.

Lemma encounter_order_without_interiors g :
  encounter_order (without_interiors g) = encounter_order g.
Proof.
  unfold encounter_order, without_interiors. cbn [gdf_geometry].
  induction (gdf_geometry g) as [| geom rest IH]; [reflexivity |].
  cbn [List.map flat_map]. rewrite IH. f_equal.
  destruct geom as [poly | geoms | other]; try reflexivity.
  induction geoms as [| poly more IHg]; [reflexivity |].
  cbn [List.map flat_map exterior]. now rewrite IHg.
Qed.

(** X8. Holes do not count.  [load_kml] reads the exterior ring of each
    polygon only: it answers the same and stores the same sample points
    whether or not the interior rings are there, for every analyzer and
    every sampling interval. *)
Theorem load_kml_ignores_interiors
    (read_file solid_file : string -> outcome (geodataframe num)) a path g :
  file_kml a = Some path ->
  read_file path = Return g ->
  solid_file path = Return (without_interiors g) ->
  result_of (load_kml solid_file a) = result_of (load_kml read_file a) /\
  koordinat_list (state_of (load_kml solid_file a))
  = koordinat_list (state_of (load_kml read_file a)) /\
  events_of (load_kml solid_file a) = events_of (load_kml read_file a).
Proof.
  intros Hpath Hread Hsolid.
  rewrite (load_kml_run read_file a path g Hpath Hread).
  rewrite (load_kml_run solid_file a path (without_interiors g) Hpath Hsolid).
  rewrite !boundary_points_encounter_order,
    encounter_order_without_interiors.
  assert (Hempty : gdf_empty (without_interiors g) = gdf_empty g).
  { unfold gdf_empty, without_interiors. cbn [gdf_geometry].
    destruct (gdf_geometry g); reflexivity. }
  rewrite Hempty.
  destruct (gdf_empty g); [repeat split |].
  destruct (slice_step _ (sampling_interval a)); repeat split.
Qed.

End BoundaryBehaviour.

(** ** The dispatcher: order of the calls, use of the service,
       repetition *)

Section DispatchBehaviour.

Context {num : Type} `{PyNumber num}.

Variable client : service num.
Variable converted_range : list Z.

Implicit Types (fr : frame num) (a : IsochroneAnalyzer num)
  (fm : folium_map num) (item : nat * point num) (profile : string).

Lemma features_loop_without_map profile clr (ft : feature num)
    (rest : list (feature num)) fr :
  self_map (self fr) = None ->
  for_each (ft :: rest) (process_feature profile clr) fr
  = (Raise (AttributeError "'NoneType' object has no attribute 'add_child'"),
     add_area (area_or_zero ft) fr, []).
Proof.
  intros Hmap. cbn [for_each]. unfold bind at 1.
  unfold process_feature, bind, modify, get, lift. cbn.
  rewrite Hmap. reflexivity.
Qed.

(** X9. [generate_isochrones] before [build_map].  When the analyzer has
    no map yet and the request of a sample point returns features, the
    area of the first feature is added to the running total, adding its
    layer to the missing map raises an [AttributeError], and the handler
    of the point reports it as a failure of the point: the other features
    are not counted and the pause is skipped.  A response without
    features goes through as usual. *)
Theorem process_point_without_map profile clr item fr isochrones :
  self_map (self fr) = None ->
  result_of (dispatch client converted_range profile item)
  = Return isochrones ->
  process_point client converted_range profile clr item fr
  = match features isochrones with
    | [] =>
        (Return tt, fr,
         events_of (dispatch client converted_range profile item)
           ++ [Sleep inter_request_delay])
    | ft :: _ =>
        (Return tt, add_area (area_or_zero ft) fr,
         events_of (dispatch client converted_range profile item)
           ++ [StErrorPoint (fst item)
                 (AttributeError
                    "'NoneType' object has no attribute 'add_child'")])
    end.
Proof.
  intros Hmap Hok. unfold process_point, try_except.
  unfold bind at 1. rewrite dispatch_run, Hok.
  destruct (features isochrones) as [| ft rest].
  - reflexivity.
  - unfold bind at 1.
    rewrite (features_loop_without_map profile clr ft rest fr Hmap).
    cbn. now rewrite app_nil_r.
Qed.

Lemma retry_loop_calls_once {S A} (func : thunk A) wait n attempt (s : S) :
  1 <= calls (events_of
                (retry_loop (num:=num) func wait attempt (Datatypes.S n) s)).
Proof.
  destruct (func attempt) as [r | e] eqn:Hcall.
  - rewrite (retry_loop_return func wait attempt n s r Hcall). cbn. lia.
  - destruct (is_ApiError e) eqn:Hapi.
    + assert (Hlim : rate_limited (func attempt) = true)
        by (rewrite Hcall; exact Hapi).
      rewrite (retry_loop_again func wait attempt n s Hlim).
      destruct (retry_loop func wait (Datatypes.S attempt) n s)
        as [[res s'] t].
      unfold events_of. cbn [snd]. rewrite calls_app. cbn. lia.
    + rewrite (retry_loop_propagate func wait attempt n s e Hcall Hapi).
      cbn. lia.
Qed.

Lemma calls_point_trace profile item :
  1 <= calls (point_trace client converted_range profile item) <= 3.
Proof.
  unfold point_trace. rewrite calls_app.
  assert (Hlast : forall ev : event num,
             (match ev with Call _ => False | _ => True end) ->
             calls [ev] = 0)
    by (intros [] Hev; try reflexivity; contradiction).
  rewrite Hlast
    by (destruct (result_of (dispatch client converted_range profile item));
        exact I).
  unfold dispatch, retry_request.
  change (Z.to_nat default_max_retries) with 3.
  pose proof (retry_loop_calls_once
                (client (isochrones_request (snd item) profile converted_range)
                   (fst item)) default_wait 2 0 tt) as Hlow.
  destruct (retry_loop_budget (num:=num)
              (client (isochrones_request (snd item) profile converted_range)
                 (fst item)) default_wait 3 0 tt) as [Hhigh _].
  lia.
Qed.

Lemma calls_profile_trace points profile :
  List.length points
  <= calls (profile_trace client converted_range points profile)
  <= 3 * List.length points.
Proof.
  unfold profile_trace.
  change (calls (StWriteProfile profile :: ?t)) with (calls t).
  assert (Hlen : List.length (enumerate points) = List.length points).
  { unfold enumerate. rewrite length_combine, length_seq. lia. }
  rewrite <- Hlen. clear Hlen.
  induction (enumerate points) as [| item rest IH]; [cbn; lia |].
  cbn [flat_map List.length]. rewrite calls_app.
  pose proof (calls_point_trace profile item). lia.
Qed.

(** X10. Use of the service by a run of the dispatcher.  With [P]
    profiles and [N] sample points, [generate_isochrones] invokes the
    service at least [P * N] times and at most [3 * P * N] times,
    whatever the service answers: one request per profile and point, all
    thresholds in the same request, and at most three attempts each. *)
Theorem generate_isochrones_call_budget a fm c :
  self_map a = Some fm ->
  centroid a = Some c ->
  let requests := List.length (profile_list a) * List.length (koordinat_list a) in
  requests
  <= calls (events_of (generate_isochrones client converted_range a))
  <= 3 * requests.
Proof.
  intros Hmap Hc requests. subst requests.
  rewrite (generate_isochrones_run client converted_range a fm c Hmap Hc).
  unfold events_of. cbn [snd].
  induction (profile_list a) as [| profile rest IH]; [cbn; lia |].
  cbn [flat_map List.length]. rewrite calls_app.
  pose proof (calls_profile_trace (koordinat_list a) profile). lia.
Qed.

(** X11. [generate_isochrones] never clears what it has written.  Run a
    second time on the same analyzer, it appends a second series of
    entries to [area_summary] after the first one, so that every profile
    is listed twice. *)
Theorem generate_isochrones_twice_appends a fm c :
  self_map a = Some fm ->
  centroid a = Some c ->
  let entries :=
    List.map (summary_entry client converted_range (koordinat_list a))
      (profile_list a) in
  result_of
    (bind (generate_isochrones client converted_range)
       (fun _ => generate_isochrones client converted_range) a)
  = Return tt /\
  area_summary
    (state_of
       (bind (generate_isochrones client converted_range)
          (fun _ => generate_isochrones client converted_range) a))
  = area_summary a ++ entries ++ entries.
Proof.
  intros Hmap Hc entries. unfold bind.
  rewrite (generate_isochrones_run client converted_range a fm c Hmap Hc).
  erewrite generate_isochrones_run; [| reflexivity | exact Hc].
  unfold result_of, state_of. cbn. fold entries.
  split; [reflexivity |]. now rewrite <- app_assoc.
Qed.

End DispatchBehaviour.

(** ** Colours, thresholds and the coordinate text *)

Section InputBehaviour.

Context {num : Type} `{PyNumber num}.

Lemma dict_get_missing (d : list (string * string)) (key default : string) :
  ~ In key (List.map fst d) -> dict_get d key default = default.
Proof.
  induction d as [| [k v] rest IH]; intros Hout; [reflexivity |].
  cbn in *. destruct (String.eqb_spec k key) as [-> | _].
  - exfalso. apply Hout. now left.
  - apply IH. intros Hin. apply Hout. now right.
Qed.

Lemma dict_get_found (d : list (string * string)) (key v default : string) :
  NoDup (List.map fst d) -> In (key, v) d -> dict_get d key default = v.
Proof.
  induction d as [| [k w] rest IH]; intros Hnodup Hin; [contradiction |].
  cbn in *. inversion Hnodup as [| ? ? Hfresh Hrest]; subst.
  destruct Hin as [Heq | Hin].
  - inversion Heq; subst. now rewrite String.eqb_refl.
  - destruct (String.eqb_spec k key) as [-> | _].
    + exfalso. apply Hfresh. apply (in_map fst) in Hin. exact Hin.
    + now apply IH.
Qed.

(** X12. The colour of a profile.  A profile listed in [COLOR_MAP] is
    drawn in the colour listed with it (no key is listed twice), and any
    other profile in the fallback colour [#666666]. *)
Theorem COLOR_MAP_lookup :
  (forall profile clr,
      In (profile, clr) COLOR_MAP ->
      dict_get COLOR_MAP profile "#666666" = clr) /\
  (forall profile,
      ~ In profile (List.map fst COLOR_MAP) ->
      dict_get COLOR_MAP profile "#666666" = "#666666"%string).
Proof.
  split.
  - intros profile clr Hin. apply dict_get_found; [| exact Hin].
    cbn. repeat constructor; cbn; intuition discriminate.
  - intros profile Hout. now apply dict_get_missing.
Qed.


Lemma split_comma_not_nil (s : string) : split_comma s <> [].
Proof.
  destruct s as [| c rest]; cbn; [discriminate |].
  destruct (Ascii.eqb c ","); [discriminate |].
  destruct (split_comma rest); discriminate.
Qed.

(** X14. [split(",")] loses nothing.  Joining the fields with commas
    gives the text back; there is always at least one field, and no
    field contains a comma. *)
Theorem split_comma_round_trip (s : string) :
  String.concat "," (split_comma s) = s /\
  1 <= List.length (split_comma s) /\
  Forall comma_free (split_comma s).
Proof.
  induction s as [| c rest [IHjoin [IHlen IHfree]]].
  - cbn. repeat split; [lia |]. constructor; [| constructor].
    intros Hin. exact Hin.
  - cbn [split_comma].
    destruct (Ascii.eqb_spec c ","%char) as [-> | Hc].
    + pose proof (split_comma_not_nil rest) as Hne.
      destruct (split_comma rest) as [| head tail] eqn:Hsplit;
        [contradiction |].
      repeat split.
      * cbn [String.concat]. cbn in IHjoin |- *. now rewrite IHjoin.
      * cbn. lia.
      * constructor; [| exact IHfree]. intros Hin. exact Hin.
    + pose proof (split_comma_not_nil rest) as Hne.
      destruct (split_comma rest) as [| head tail] eqn:Hsplit;
        [contradiction |].
      apply Forall_cons_iff in IHfree as [Hhead Htail].
      repeat split.
      * destruct tail as [| next more].
        -- cbn in IHjoin |- *. now rewrite IHjoin.
        -- change (String.concat "," (String c head :: next :: more))
             with (String c (String.concat "," (head :: next :: more))).
           now rewrite IHjoin.
      * cbn. lia.
      * constructor; [| exact Htail].
        intros [Heq | Hin]; [now apply Hc | now apply Hhead].
Qed.

(** X15. Which coordinate texts are accepted.  The unpacking of the
    converted fields succeeds exactly when there are two fields and both
    convert to numbers, the first being the longitude; and every refusal
    is a [ValueError]. *)
Theorem unpack_lon_lat_accepts (parts : list string) :
  (forall lon lat : num,
      unpack_lon_lat parts = Return (lon, lat) <->
      exists a b,
        parts = [a; b] /\ float a = Some lon /\ float b = Some lat) /\
  (forall e,
      unpack_lon_lat parts = Raise e -> exists msg, e = ValueError msg).
Proof.
  split.
  - intros lon lat. split.
    + intros Hok. unfold unpack_lon_lat in Hok.
      destruct parts as [| a [| b [| c more]]]; try discriminate.
      * destruct (float a); discriminate.
      * destruct (float a) as [x |] eqn:Ha; [| discriminate].
        destruct (float b) as [y |] eqn:Hb; [| discriminate].
        inversion Hok; subst. now exists a, b.
      * destruct (float a); [| discriminate].
        destruct (float b); [| discriminate].
        destruct (float c); discriminate.
    + intros [a [b [-> [Ha Hb]]]]. cbn. now rewrite Ha, Hb.
  - intros e Hfail. unfold unpack_lon_lat, float_error in Hfail.
    destruct parts as [| a [| b [| c more]]].
    + inversion Hfail. eauto.
    + destruct (float a); inversion Hfail; eauto.
    + destruct (float a); [| inversion Hfail; eauto].
      destruct (float b); inversion Hfail; eauto.
    + destruct (float a); [| inversion Hfail; eauto].
      destruct (float b); [| inversion Hfail; eauto].
      destruct (float c); inversion Hfail; eauto.
Qed.

End InputBehaviour.

(** ** The single-point branch *)

Section SinglePointBehaviour.

Context {num : Type} `{PyNumber num}.

Variable client : service num.
Variable converted_range : list Z.
Variables lon lat : num.

Implicit Types (fr : point_frame (num:=num)) (profile : string)
  (w : widgets num).

Local Abbreviation pt_body :=
  (pt_process_profile client converted_range lon lat).
Local Abbreviation pt_request profile :=
  (pt_dispatch client converted_range lon lat profile).
Local Abbreviation pt_events :=
  (pt_profile_trace client converted_range lon lat).
Local Abbreviation pt_line :=
  (pt_entry client converted_range lon lat).

Lemma pt_features_loop_run profile clr (fts : list (feature num)) :
  forall fr,
    for_each fts (pt_process_feature profile clr) fr
    = (Return tt, pt_record_features profile clr fts fr, []).
Proof.
  induction fts as [| ft rest IH]; intros fr; [reflexivity |].
  cbn [for_each]. unfold bind at 1.
  unfold pt_process_feature at 1, bind, modify. cbn.
  rewrite IH. reflexivity.
Qed.

Lemma pt_record_features_locals profile clr (fts : list (feature num)) :
  forall fr,
    pt_area_summary (pt_record_features profile clr fts fr)
    = pt_area_summary fr /\
    pt_total_area_m2 (pt_record_features profile clr fts fr)
    = sum_areas (pt_total_area_m2 fr) fts.
Proof.
  induction fts as [| ft rest IH]; intros fr; [split; reflexivity |].
  set (fr1 := pt_add_layer
                (IsochroneLayer ft (layer_name (value ft / 60) profile) clr
                   (2 # 5)%Q (value ft / 60)%Z (km2_of (area_or_zero ft)))
                (pt_add_area (area_or_zero ft) fr)).
  change (pt_record_features profile clr (ft :: rest) fr)
    with (pt_record_features profile clr rest fr1).
  destruct (IH fr1) as [Hsum Htotal].
  rewrite Hsum, Htotal. split; reflexivity.
Qed.

Lemma pt_retry_run profile fr :
  retry_request
    (client (isochrones_request (lon, lat) profile converted_range) 0)
    default_max_retries default_wait fr
  = (result_of (pt_request profile), fr, events_of (pt_request profile)).
Proof.
  unfold retry_request, pt_dispatch, dispatch, retry_request.
  apply retry_loop_stateless.
Qed.

Lemma pt_process_profile_returned profile fr isochrones :
  result_of (pt_request profile) = Return isochrones ->
  pt_body profile fr
  = (Return tt,
     pt_append_summary profile
       (pt_record_features profile (dict_get COLOR_MAP profile "#666666")
          (features isochrones) (pt_reset_total fr)),
     pt_events profile).
Proof.
  intros Hok. unfold pt_process_profile.
  unfold bind at 1. unfold emit at 1.
  unfold bind at 1. unfold modify at 1.
  unfold bind at 1. rewrite pt_retry_run, Hok.
  unfold bind at 1. rewrite pt_features_loop_run.
  unfold modify, pt_profile_trace. cbn. now rewrite ?app_nil_r.
Qed.

Lemma pt_process_profile_failed profile fr e :
  result_of (pt_request profile) = Raise e ->
  pt_body profile fr = (Raise e, pt_reset_total fr, pt_events profile).
Proof.
  intros Hfail. unfold pt_process_profile.
  unfold bind at 1. unfold emit at 1.
  unfold bind at 1. unfold modify at 1.
  unfold bind at 1. rewrite pt_retry_run, Hfail.
  unfold pt_profile_trace. cbn. now rewrite ?app_nil_r.
Qed.

(** The loop over the profiles while every request succeeds. *)
Lemma pt_profiles_loop_returned (profiles : list string) :
  forall fr,
    (forall profile,
        In profile profiles ->
        exists isochrones,
          result_of (pt_request profile) = Return isochrones) ->
    exists fr',
      for_each profiles pt_body fr
      = (Return tt, fr', flat_map pt_events profiles) /\
      pt_area_summary fr'
      = pt_area_summary fr ++ List.map pt_line profiles.
Proof.
  induction profiles as [| profile rest IH]; intros fr Hall.
  - exists fr. split; [reflexivity |]. cbn. now rewrite app_nil_r.
  - destruct (Hall profile (or_introl eq_refl)) as [isochrones Hok].
    cbn [for_each]. unfold bind.
    rewrite (pt_process_profile_returned profile fr isochrones Hok).
    set (fr1 := pt_append_summary profile _).
    destruct (IH fr1 (fun p Hp => Hall p (or_intror Hp)))
      as [fr' [Hrun Hsummary]].
    exists fr'. rewrite Hrun. split; [reflexivity |].
    rewrite Hsummary. subst fr1. cbn [pt_append_summary pt_area_summary].
    destruct (pt_record_features_locals profile
                (dict_get COLOR_MAP profile "#666666")
                (features isochrones) (pt_reset_total fr))
      as [Hsum Htotal].
    rewrite Hsum, Htotal. cbn [pt_reset_total pt_area_summary
                                 pt_total_area_m2 List.map].
    rewrite <- app_assoc. cbn [app]. f_equal. f_equal.
    unfold pt_entry, point_features.
    change (dispatch client converted_range profile (0, (lon, lat)))
      with (pt_request profile).
    now rewrite Hok.
Qed.

Lemma emit_each_run {S} (entries : list (string * num)) (s : S) :
  for_each entries (fun entry => emit (StMarkdown (fst entry) (snd entry))) s
  = (Return tt, s,
     List.map (fun entry => StMarkdown (fst entry) (snd entry)) entries).
Proof.
  induction entries as [| entry rest IH]; [reflexivity |].
  cbn [for_each]. unfold bind. unfold emit at 1. rewrite IH. reflexivity.
Qed.

Lemma markdown_lines_pt_events (profiles : list string) :
  markdown_lines (flat_map pt_events profiles) = [].
Proof.
  induction profiles as [| profile rest IH]; [reflexivity |].
  cbn [flat_map]. rewrite markdown_lines_app, IH, app_nil_r.
  unfold pt_profile_trace.
  change (markdown_lines (StWriteProfile profile :: ?t))
    with (markdown_lines t).
  unfold pt_dispatch, dispatch, retry_request.
  apply markdown_lines_retry_loop.
Qed.

End SinglePointBehaviour.

(** ** Runs of the script *)

Section ScriptBehaviour.

Context {num : Type} `{PyNumber num}.

Implicit Types (client : service num) (w : widgets num).

(** A run of the single-point branch is the branch itself followed by the
    [NameError] of line 237. *)
Lemma single_point_run client w text :
  run_analysis w = true ->
  ui_input w = TitikKoordinat text ->
  events_of (run client w)
  = events_of (single_point client text (converted_range_of w)
                 (ui_profile_list w) initial_state).
Proof.
  intros Hrun Hinput. unfold run, driver. rewrite Hrun, Hinput.
  unfold bind at 1.
  destruct (single_point_handled client text (converted_range_of w)
              (ui_profile_list w) initial_state) as [Hres Hst].
  destruct (single_point _ _ _ _ initial_state) as [[r st] t].
  unfold result_of, state_of, events_of in *. cbn [fst snd] in *.
  subst r st. cbn. now rewrite app_nil_r.
Qed.

Lemma single_point_returned client text converted_range profiles st
    (lon lat : num) :
  unpack_lon_lat (split_comma text) = Return (lon, lat) ->
  (forall profile,
      In profile profiles ->
      exists isochrones,
        result_of (pt_dispatch client converted_range lon lat profile)
        = Return isochrones) ->
  exists shown,
    events_of (single_point client text converted_range profiles st)
    = flat_map (pt_profile_trace client converted_range lon lat) profiles
        ++ StSubheader
        :: List.map (fun entry => StMarkdown (fst entry) (snd entry))
             (List.map (pt_entry client converted_range lon lat) profiles)
        ++ [StFolium (Some shown)].
Proof.
  intros Hparse Hall. unfold single_point, try_except.
  unfold bind at 1. unfold lift at 1. rewrite Hparse. cbn [fst snd].
  unfold on_object. unfold bind at 1.
  match goal with
  | |- context [for_each profiles _ ?fr0] =>
      destruct (pt_profiles_loop_returned client converted_range lon lat
                  profiles fr0 Hall) as [fr' [Hloop Hsummary]];
      rewrite Hloop
  end.
  unfold bind, modify, get. unfold emit at 1. cbv beta iota.
  rewrite emit_each_run.
  cbn [pt_add_layer pt_area_summary] in *. rewrite Hsummary.
  unfold emit, events_of. cbn [fst snd app].
  eexists. reflexivity.
Qed.

(** X16. The summary of a single-point run.  When the coordinate text
    parses and the request of every selected profile succeeds, the run
    issues the requests profile by profile, then writes one summary line
    per profile, in order, with [round(total / 1e6, 2)], [total] being
    the plain sum of the areas returned for the profile, and shows the
    map. *)
Theorem single_point_summary client w text (lon lat : num) :
  run_analysis w = true ->
  ui_input w = TitikKoordinat text ->
  unpack_lon_lat (split_comma text) = Return (lon, lat) ->
  (forall profile,
      In profile (ui_profile_list w) ->
      exists isochrones,
        result_of (pt_dispatch client (converted_range_of w) lon lat profile)
        = Return isochrones) ->
  markdown_lines (events_of (run client w))
  = List.map
      (fun profile =>
         (profile,
          round_ndigits
            (truediv
               (fold_left (fun total ft => add total (area_or_zero ft))
                  (point_features client (converted_range_of w) profile
                     (0, (lon, lat)))
                  int0)
               lit_1e6) 2%Z))
      (ui_profile_list w)
  /\
  exists shown,
    events_of (run client w)
    = flat_map (pt_profile_trace client (converted_range_of w) lon lat)
        (ui_profile_list w)
        ++ StSubheader
        :: List.map (fun entry => StMarkdown (fst entry) (snd entry))
             (List.map (pt_entry client (converted_range_of w) lon lat)
                (ui_profile_list w))
        ++ [StFolium (Some shown)].
Proof.
  intros Hrun Hinput Hparse Hall.
  rewrite (single_point_run client w text Hrun Hinput).
  destruct (single_point_returned client text (converted_range_of w)
              (ui_profile_list w) initial_state lon lat Hparse Hall)
    as [shown Hev].
  rewrite Hev. split; [| now exists shown].
  rewrite markdown_lines_app, markdown_lines_pt_events.
  change (markdown_lines (StSubheader :: ?t)) with (markdown_lines t).
  rewrite markdown_lines_app, markdown_lines_summary.
  cbn [markdown_lines flat_map app]. now rewrite app_nil_r.
Qed.

(** X17. No isolation between the profiles of a single-point run.  When
    the request of a profile fails, with the requests of the profiles
    before it having succeeded, the failure is reported once and the run
    of the branch is over: the profiles after it are neither announced
    nor requested, no summary line is written and no map is shown. *)
Theorem single_point_failure_stops_the_run client w text (lon lat : num)
    (before after : list string) (failing : string) (e : exn) :
  run_analysis w = true ->
  ui_input w = TitikKoordinat text ->
  unpack_lon_lat (split_comma text) = Return (lon, lat) ->
  ui_profile_list w = before ++ failing :: after ->
  (forall profile,
      In profile before ->
      exists isochrones,
        result_of (pt_dispatch client (converted_range_of w) lon lat profile)
        = Return isochrones) ->
  result_of (pt_dispatch client (converted_range_of w) lon lat failing)
  = Raise e ->
  events_of (run client w)
  = flat_map (pt_profile_trace client (converted_range_of w) lon lat) before
      ++ pt_profile_trace client (converted_range_of w) lon lat failing
      ++ [StErrorCoordinate e]
  /\
  markdown_lines (events_of (run client w)) = [].
Proof.
  intros Hrun Hinput Hparse Hlist Hbefore Hfail.
  rewrite (single_point_run client w text Hrun Hinput).
  assert (Hev :
    events_of (single_point client text (converted_range_of w)
                 (ui_profile_list w) initial_state)
    = flat_map (pt_profile_trace client (converted_range_of w) lon lat) before
        ++ pt_profile_trace client (converted_range_of w) lon lat failing
        ++ [StErrorCoordinate e]).
  { unfold single_point, try_except.
    unfold bind at 1. unfold lift at 1. rewrite Hparse. cbn [fst snd].
    unfold on_object. unfold bind at 1.
    rewrite Hlist, for_each_app.
    match goal with
    | |- context [for_each before _ ?fr0] =>
        destruct (pt_profiles_loop_returned client (converted_range_of w)
                    lon lat before fr0 Hbefore) as [fr' [Hloop _]];
        rewrite Hloop
    end.
    cbn [for_each]. unfold bind at 1.
    rewrite (pt_process_profile_failed client (converted_range_of w)
               lon lat failing fr' e Hfail).
    unfold emit, events_of. cbn. now rewrite <- !app_assoc. }
  rewrite Hev. split; [reflexivity |].
  rewrite !markdown_lines_app, markdown_lines_pt_events.
  pose proof (markdown_lines_pt_events client (converted_range_of w)
                lon lat [failing]) as Hone.
  cbn [flat_map] in Hone. rewrite app_nil_r in Hone. rewrite Hone.
  reflexivity.
Qed.

(** X18. The button without a file.  When the analysis is started in the
    file mode while no file is uploaded, the temporary file is opened
    for writing and reading the missing upload raises an
    [AttributeError] that leaves the script: nothing is reported and no
    request is issued. *)
Theorem run_without_upload client w :
  run_analysis w = true ->
  ui_input w = FileKML None ->
  run client w
  = (Raise (AttributeError "'NoneType' object has no attribute 'read'"),
     assign_path_kml "temp_uploaded.kml" initial_state,
     [OpenFile "temp_uploaded.kml"]).
Proof.
  intros Hrun Hinput. unfold run, driver. rewrite Hrun, Hinput.
  reflexivity.
Qed.

(** X19. A file the parser refuses.  When [gpd.read_file] raises on the
    uploaded file, the exception leaves [load_kml] and the script as it
    is: the message of [load_kml] for an empty or invalid file is not
    written, and no request is issued. *)
Theorem run_on_rejected_file client w u (e : exn) :
  run_analysis w = true ->
  ui_input w = FileKML (Some u) ->
  parsed u = Raise e ->
  result_of (run client w) = Raise e /\
  events_of (run client w)
  = [OpenFile "temp_uploaded.kml"; FileWrite "temp_uploaded.kml"].
Proof.
  intros Hrun Hinput Hparsed. unfold run, driver. rewrite Hrun, Hinput.
  unfold bind, modify, emit, get, on_object, analysis.
  cbn [fst snd app path_kml write_upload assign_path_kml].
  unfold load_kml, bind, get, lift, read_file_in.
  cbn. rewrite Hparsed. split; reflexivity.
Qed.

Lemma flat_map_singleton {X Y} (f : X -> Y) (l : list X) :
  flat_map (fun x => [f x]) l = List.map f l.
Proof. induction l as [| x rest IH]; [reflexivity |]. cbn. now rewrite IH. Qed.

Lemma calls_announcements (profiles : list string) :
  calls (num:=num) (List.map StWriteProfile profiles) = 0.
Proof. induction profiles as [| p rest IH]; [reflexivity | exact IH]. Qed.

Lemma calls_zero_lines (profiles : list string) :
  calls (List.map (fun p => StMarkdown p (int0 : num)) profiles) = 0.
Proof. induction profiles as [| p rest IH]; [reflexivity | exact IH]. Qed.

(** X20. A file without any polygon.  When the uploaded file parses to
    geometries none of which is a polygon or a multi-polygon (placemarks,
    paths), the file is not reported as empty: [load_kml] announces 0
    sample points, every profile is announced without any request, the
    summary shows 0 for every profile and the map is shown. *)
Theorem run_on_file_without_polygon client w u g :
  run_analysis w = true ->
  ui_input w = FileKML (Some u) ->
  parsed u = Return g ->
  gdf_empty g = false ->
  total_vertices g = 0 ->
  (0 < ui_sampling w)%Z ->
  result_of (run client w) = Return tt /\
  calls (events_of (run client w)) = 0 /\
  exists shown,
    events_of (run client w)
    = [OpenFile "temp_uploaded.kml"; FileWrite "temp_uploaded.kml";
       StInfoPoints 0]
        ++ List.map StWriteProfile (ui_profile_list w)
        ++ StSubheader
        :: List.map (fun profile => StMarkdown profile int0)
             (ui_profile_list w)
        ++ [StFolium (Some shown)].
Proof.
  intros Hrun Hinput Hparsed Hempty Hnone HN.
  destruct (region_run client w u g Hrun Hinput Hparsed Hempty HN)
    as [Hres [shown Hev]].
  assert (Hpoints : sample_points g (ui_sampling w) = []).
  { unfold sample_points. rewrite total_vertices_length in Hnone.
    apply length_zero_iff_nil in Hnone. now rewrite Hnone. }
  rewrite Hpoints in Hev.
  assert (Htrace :
    flat_map (profile_trace client (converted_range_of w) [])
      (ui_profile_list w)
    = List.map StWriteProfile (ui_profile_list w))
    by apply (flat_map_singleton StWriteProfile).
  assert (Hlines :
    List.map (fun entry : string * num => StMarkdown (fst entry) (snd entry))
      (List.map (summary_entry client (converted_range_of w) [])
         (ui_profile_list w))
    = List.map (fun profile => StMarkdown profile int0) (ui_profile_list w)).
  { rewrite map_map. apply map_ext. intros profile.
    unfold summary_entry, returned_features, km2_of. cbn.
    now rewrite round_div_zero. }
  rewrite Htrace, Hlines in Hev. cbn [List.length] in Hev.
  split; [exact Hres |]. split; [| now exists shown].
  rewrite Hev, !calls_app, calls_announcements.
  change (calls (StSubheader :: ?t)) with (calls t).
  rewrite calls_app, calls_zero_lines. reflexivity.
Qed.

End ScriptBehaviour.

(** ** Further concrete runs *)

Lemma retry_request_returns_a_call_result_witness :
  exists K,
    (Z.of_nat K < 3)%Z /\
    (forall i, i < K -> rate_limited (flaky i) = true) /\
    flaky K = Return 7.
Proof.
  exact (retry_request_returns_a_call_result (num:=Q) flaky 3 5%Q tt 7
           eq_refl).
Defined.

Lemma retry_request_never_raises_ApiError_witness :
  is_ApiError (OtherException "timeout") = false /\
  (OtherException "timeout" = RuntimeError exhausted_message \/
   exists K, limited_then_timeout K = Raise (OtherException "timeout")).
Proof.
  exact (retry_request_never_raises_ApiError (num:=Q) limited_then_timeout
           3 5%Q tt (OtherException "timeout") eq_refl).
Defined.

Lemma retry_request_waits_before_giving_up_witness :
  sleeps (events_of (retry_request (num:=Q) always_limited 3 5%Q tt))
  = [5%Q; 5%Q; 5%Q].
Proof.
  exact (proj2 (retry_request_waits_before_giving_up (num:=Q) always_limited
                  3 5%Q tt (fun _ _ => eq_refl))).
Defined.

Lemma load_kml_zero_interval_witness :
  result_of
    (load_kml (fun _ => Return demo_gdf)
       (init "key" (Some "temp_uploaded.kml"%string) [300%Z]
          ["driving-car"%string] 0))
  = Raise (ValueError "slice step cannot be zero").
Proof.
  rewrite (load_kml_zero_interval (fun _ => Return demo_gdf)
             (init "key" (Some "temp_uploaded.kml"%string) [300%Z]
                ["driving-car"%string] 0)
             "temp_uploaded.kml" demo_gdf eq_refl eq_refl eq_refl eq_refl).
  reflexivity.
Defined.

Lemma load_kml_negative_interval_witness :
  (-5 < 0)%Z /\
  Z.of_nat
    (List.length (sampled_by (fun _ => Return demo_gdf) "temp_uploaded.kml"
                    (-5)))
  = 3%Z.
Proof.
  split; [reflexivity |].
  exact (proj1 (load_kml_negative_interval (fun _ => Return demo_gdf)
                  "temp_uploaded.kml" (-5) demo_gdf eq_refl eq_refl)).
Defined.

Lemma load_kml_extreme_intervals_witness :
  List.length (sampled_by (fun _ => Return demo_gdf) "temp_uploaded.kml" 1)
  = 12
  /\
  sampled_by (fun _ => Return demo_gdf) "temp_uploaded.kml" 12
  = [(inject_Z 0, inject_Z 0)].
Proof.
  destruct (load_kml_extreme_intervals (fun _ => Return demo_gdf)
              "temp_uploaded.kml" demo_gdf eq_refl) as [Hall Hfirst].
  split.
  - rewrite Hall. reflexivity.
  - apply (Hfirst 12%Z (vtx 0 0) (List.tl (encounter_order demo_gdf)));
      [reflexivity |].
    intros Hgt. discriminate Hgt.
Defined.

Lemma load_kml_ignores_interiors_witness :
  koordinat_list
    (state_of
       (load_kml (fun _ => Return (without_interiors holed_gdf))
          (init "key" (Some "temp_uploaded.kml"%string) [300%Z]
             ["driving-car"%string] 2)))
  = koordinat_list
      (state_of
         (load_kml (fun _ => Return holed_gdf)
            (init "key" (Some "temp_uploaded.kml"%string) [300%Z]
               ["driving-car"%string] 2))).
Proof.
  exact (proj1 (proj2 (load_kml_ignores_interiors
                         (fun _ => Return holed_gdf)
                         (fun _ => Return (without_interiors holed_gdf))
                         (init "key" (Some "temp_uploaded.kml"%string)
                            [300%Z] ["driving-car"%string] 2)
                         "temp_uploaded.kml" holed_gdf
                         eq_refl eq_refl eq_refl))).
Defined.

Lemma process_point_without_map_witness :
  process_point demo_client [300%Z] "driving-car" "#1a9641"
    (0, (inject_Z 0, inject_Z 0)) unmapped_frame
  = (Return tt, add_area (inject_Z 1000000) unmapped_frame,
     [Call 0;
      StErrorPoint 0
        (AttributeError "'NoneType' object has no attribute 'add_child'")]).
Proof.
  exact (process_point_without_map demo_client [300%Z] "driving-car"
           "#1a9641" (0, (inject_Z 0, inject_Z 0)) unmapped_frame
           two_features eq_refl eq_refl).
Defined.

Lemma generate_isochrones_call_budget_witness :
  6 <= calls (events_of (generate_isochrones demo_client [300%Z] demo_ready))
    <= 18.
Proof.
  exact (generate_isochrones_call_budget demo_client [300%Z] demo_ready
           demo_map (inject_Z 5, inject_Z 0) eq_refl eq_refl).
Defined.

Lemma generate_isochrones_twice_appends_witness :
  area_summary
    (state_of
       (bind (generate_isochrones demo_client [300%Z])
          (fun _ => generate_isochrones demo_client [300%Z]) demo_ready))
  = [("driving-car"%string, 1%Q); ("foot-walking"%string, 0%Q);
     ("driving-car"%string, 1%Q); ("foot-walking"%string, 0%Q)].
Proof.
  rewrite (proj2 (generate_isochrones_twice_appends demo_client [300%Z]
                    demo_ready demo_map (inject_Z 5, inject_Z 0)
                    eq_refl eq_refl)).
  reflexivity.
Defined.

Lemma COLOR_MAP_lookup_witness :
  dict_get COLOR_MAP "wheelchair" "#666666" = "#ff7f00"%string /\
  dict_get COLOR_MAP "hovercraft" "#666666" = "#666666"%string.
Proof.
  split.
  - apply (proj1 COLOR_MAP_lookup). cbn. tauto.
  - apply (proj2 COLOR_MAP_lookup). cbn. intuition discriminate.
Defined.


Lemma unpack_lon_lat_accepts_witness :
  unpack_lon_lat (num:=Q) ["106.8"%string; "-6.2"%string]
  = Return (jakarta_lon, jakarta_lat)
  /\
  exists msg,
    ValueError "could not convert string to float: abc" = ValueError msg.
Proof.
  split.
  - apply (proj1 (unpack_lon_lat_accepts (num:=Q)
                    ["106.8"%string; "-6.2"%string])).
    exists "106.8"%string, "-6.2"%string. repeat split.
  - apply (proj2 (unpack_lon_lat_accepts (num:=Q) ["abc"%string])).
    reflexivity.
Defined.

Lemma single_point_summary_witness :
  markdown_lines (events_of (run echo_client point_widgets))
  = [("driving-car"%string, (5 # 2)%Q)].
Proof.
  refine (proj1 (single_point_summary echo_client point_widgets "106.8,-6.2"
                   jakarta_lon jakarta_lat eq_refl eq_refl eq_refl _)).
  intros profile _. eexists. reflexivity.
Defined.

Lemma single_point_failure_stops_the_run_witness :
  events_of (run demo_client late_refusal_widgets)
  = [StWriteProfile "driving-car"; Call 0;
     StWriteProfile "foot-walking"; Call 0;
     StErrorCoordinate (OtherException "profile not available")].
Proof.
  refine (proj1 (single_point_failure_stops_the_run demo_client
                   late_refusal_widgets "106.8,-6.2" jakarta_lon jakarta_lat
                   ["driving-car"%string] ["cycling-regular"%string]
                   "foot-walking" (OtherException "profile not available")
                   eq_refl eq_refl eq_refl eq_refl _ eq_refl)).
  intros profile [<- | []]. exists two_features. reflexivity.
Defined.

Lemma run_without_upload_witness :
  result_of (run demo_client no_upload_widgets)
  = Raise (AttributeError "'NoneType' object has no attribute 'read'").
Proof.
  rewrite (run_without_upload demo_client no_upload_widgets eq_refl eq_refl).
  reflexivity.
Defined.

Lemma run_on_rejected_file_witness :
  result_of (run demo_client rejected_upload_widgets)
  = Raise (OtherException "not a KML document") /\
  events_of (run demo_client rejected_upload_widgets)
  = [OpenFile "temp_uploaded.kml"; FileWrite "temp_uploaded.kml"].
Proof.
  exact (run_on_rejected_file demo_client rejected_upload_widgets
           rejected_upload (OtherException "not a KML document")
           eq_refl eq_refl eq_refl).
Defined.

Lemma run_on_file_without_polygon_witness :
  result_of (run demo_client placemark_widgets) = Return tt /\
  calls (events_of (run demo_client placemark_widgets)) = 0.
Proof.
  destruct (run_on_file_without_polygon demo_client placemark_widgets
              {| parsed := Return placemark_gdf |} placemark_gdf
              eq_refl eq_refl eq_refl eq_refl eq_refl eq_refl)
    as [Hres [Hcalls _]].
  split; [exact Hres | exact Hcalls].
Defined.

(** ** Whole runs on a region *)

Section RegionBehaviour.

Context {num : Type} `{PyNumber num}.

Implicit Types (client : service num) (w : widgets num)
  (a : IsochroneAnalyzer num).

(** X21. The summary a region run writes.  In a run on an uploaded file
    that parses to a non-empty GeoDataFrame, with a positive sampling
    interval, the lines written by [display_summary] are, for the
    selected profiles in order, the profile with [round(total / 1e6, 2)],
    [total] being the plain sum of the areas returned for the sample
    points of the file, every [N]-th vertex from the first. *)
Theorem region_run_summary client w u g :
  run_analysis w = true ->
  ui_input w = FileKML (Some u) ->
  parsed u = Return g ->
  gdf_empty g = false ->
  (0 < ui_sampling w)%Z ->
  markdown_lines (events_of (run client w))
  = List.map
      (fun profile =>
         (profile,
          round_ndigits
            (truediv
               (fold_left (fun total ft => add total (area_or_zero ft))
                  (returned_features client (converted_range_of w) profile
                     (sample_points g (ui_sampling w)))
                  int0)
               lit_1e6) 2%Z))
      (ui_profile_list w).
Proof.
  intros Hrun Hinput Hparsed Hempty HN.
  now rewrite (region_summary_lines client w u g Hrun Hinput Hparsed
                 Hempty HN).
Qed.

Lemma point_trace_first_attempt client converted_range profile
    (item : nat * point num) isochrones :
  client (isochrones_request (snd item) profile converted_range) (fst item) 0
  = Return isochrones ->
  point_trace client converted_range profile item
  = [Call 0; Sleep inter_request_delay].
Proof.
  intros Hfirst. unfold point_trace, dispatch, retry_request.
  change (Z.to_nat default_max_retries) with 3.
  rewrite (retry_loop_return _ default_wait 0 2 tt isochrones Hfirst).
  reflexivity.
Qed.

(** X22. The pace of an undisturbed run.  When every request is answered
    at its first attempt, [generate_isochrones] invokes the service once
    per profile and sample point and pauses 2.5 after each of these
    requests, the last one included: [P * N] requests and [P * N]
    pauses. *)
Theorem generate_isochrones_undisturbed client converted_range a fm c :
  self_map a = Some fm ->
  centroid a = Some c ->
  (forall profile item,
      In profile (profile_list a) ->
      In item (enumerate (koordinat_list a)) ->
      exists isochrones,
        client (isochrones_request (snd item) profile converted_range)
          (fst item) 0
        = Return isochrones) ->
  let requests :=
    List.length (profile_list a) * List.length (koordinat_list a) in
  calls (events_of (generate_isochrones client converted_range a))
  = requests /\
  sleeps (events_of (generate_isochrones client converted_range a))
  = repeat inter_request_delay requests.
Proof.
  intros Hmap Hc Hall requests. subst requests.
  rewrite (generate_isochrones_run client converted_range a fm c Hmap Hc).
  unfold events_of. cbn [snd].
  assert (Hlen : List.length (enumerate (koordinat_list a))
                 = List.length (koordinat_list a)).
  { unfold enumerate. rewrite length_combine, length_seq. lia. }
  rewrite <- Hlen. unfold profile_trace.
  revert Hall. generalize (enumerate (koordinat_list a)) as items.
  clear Hlen. intros items Hall.
  induction (profile_list a) as [| profile rest IH]; [split; reflexivity |].
  destruct IH as [IHcalls IHsleeps].
  { intros p item Hp Hitem. apply Hall; [now right | exact Hitem]. }
  cbn [flat_map List.length Nat.mul].
  rewrite calls_app, sleeps_app, repeat_app, IHcalls, IHsleeps.
  change (calls (StWriteProfile profile :: ?t)) with (calls t).
  change (sleeps (StWriteProfile profile :: ?t)) with (sleeps t).
  assert (Hprofile :
    calls (flat_map (point_trace client converted_range profile) items)
    = List.length items /\
    sleeps (flat_map (point_trace client converted_range profile) items)
    = repeat inter_request_delay (List.length items)).
  { assert (Hitems : forall item, In item items ->
               point_trace client converted_range profile item
               = [Call 0; Sleep inter_request_delay]).
    { intros item Hitem.
      destruct (Hall profile item (or_introl eq_refl) Hitem) as [iso Hiso].
      now apply point_trace_first_attempt with (isochrones := iso). }
    clear Hall IHcalls IHsleeps.
    induction items as [| item more IHm]; [split; reflexivity |].
    cbn [flat_map List.length].
    rewrite calls_app, sleeps_app, (Hitems item (or_introl eq_refl)).
    destruct IHm as [Hc1 Hs1];
      [intros it Hit; apply Hitems; now right |].
    rewrite Hc1, Hs1. split; reflexivity. }
  destruct Hprofile as [Hpc Hps]. rewrite Hpc, Hps. split; reflexivity.
Qed.

End RegionBehaviour.

Lemma region_run_summary_witness :
  markdown_lines (events_of (run unit_area_client scenario_widgets))
  = [("driving-car"%string, inject_Z 15); ("foot-walking"%string, inject_Z 15)].
Proof.
  rewrite (region_run_summary unit_area_client scenario_widgets
             {| parsed := Return ring_100 |} ring_100
             eq_refl eq_refl eq_refl eq_refl eq_refl).
  vm_compute. reflexivity.
Defined.

Lemma generate_isochrones_undisturbed_witness :
  calls (events_of (generate_isochrones echo_client [300%Z] demo_ready)) = 6
  /\
  sleeps (events_of (generate_isochrones echo_client [300%Z] demo_ready))
  = repeat inter_request_delay 6.
Proof.
  refine (generate_isochrones_undisturbed echo_client [300%Z] demo_ready
            demo_map (inject_Z 5, inject_Z 0) eq_refl eq_refl _).
  intros profile item _ _. eexists. reflexivity.
Defined.
